(** * BPL-python: canonical transaction bytes, identifier, signing, verification

    A shallow embedding of [bpl_lib/transactions/Transaction.py].

    - bytes are [list byte]; hex strings are [string];
    - Python exceptions are the [Error] side of [result];
    - a method of [Transaction] is a state transformer over the record of
      the instance attributes, which also lists the calls it makes to the
      signing and verification primitives;
    - the collaborators the class calls but does not define (the clock,
      the key derivation, the base58 codec, the signing and verification
      primitives, the per-type hook of the subclasses) are the fields of
      the class [Collaborators];
    - [hexlify], [unhexlify], [sha256] and [Buffer], which the class
      imports from modules that are not part of the sources at hand, are
      modelled in full, so that every example runs.                       *)

From Stdlib Require Import ZArith List String Ascii Strings.Byte Bool Lia.
From stdpp Require Import base option gmap strings.
Import ListNotations.

Local Open Scope Z_scope.

(* ------------------------------------------------------------------ *)
(** ** Exceptions and fallible computations                              *)
(* ------------------------------------------------------------------ *)

(** The exceptions an encode, sign or verify call can end with.
    [ValueError] and [NotImplementedError] are raised by the source itself
    ([bytes] of a negative count, the abstract hook); the others are the
    failures of the helpers the source imports. *)
Inductive exn : Set :=
  | MalformedHexError      (* unhexlify: odd length or a non-hex digit      *)
  | InvalidAddressError    (* base58.b58decode_check                        *)
  | ValueError             (* bytes(n) with n < 0                           *)
  | StructError            (* a fixed-width writer given a value too wide   *)
  | MissingFeeError        (* write_long given None                         *)
  | NotImplementedError    (* Transaction._handle_transaction_type          *)
  | UnrecognizedTypeError  (* a hook that does not know the type            *)
  | VerificationError.     (* the verify primitive given malformed input    *)

Inductive result (A : Type) : Type :=
  | Ok (a : A)
  | Error (e : exn).
Arguments Ok {A} a.
Arguments Error {A} e.

Definition rbind {A B} (r : result A) (f : A -> result B) : result B :=
  match r with
  | Ok a => f a
  | Error e => Error e
  end.

Notation "'do' x <- r ; k" := (rbind r (fun x => k))
  (at level 10, x name, r at level 100, k at level 200).

(* ------------------------------------------------------------------ *)
(** ** Bytes                                                             *)
(* ------------------------------------------------------------------ *)

Definition bytes := list byte.

Definition byte_of_Z (z : Z) : byte :=
  match Byte.of_N (Z.to_N (z mod 256)) with
  | Some b => b
  | None => "000"%byte
  end.

Definition Z_of_byte (b : byte) : Z := Z.of_N (Byte.to_N b).

(** Python's [bytes(n)]: [n] zero bytes, [ValueError] for a negative [n]. *)
Definition py_bytes (n : Z) : result bytes :=
  if n <? 0 then Error ValueError
  else Ok (repeat "000"%byte (Z.to_nat n)).

Definition zeros (n : nat) : bytes := repeat "000"%byte n.

(** The [w] low-order bytes of [v], least significant first. *)
Fixpoint le_bytes (w : nat) (v : Z) : bytes :=
  match w with
  | O => []
  | S w' => byte_of_Z v :: le_bytes w' (Z.shiftr v 8)
  end.

(** The [w] low-order bytes of [v], most significant first. *)
Definition be_bytes (w : nat) (v : Z) : bytes := rev (le_bytes w v).

(* ------------------------------------------------------------------ *)
(** ** bpl_lib.helpers.Util: hexlify, unhexlify                          *)
(* ------------------------------------------------------------------ *)

Module Util.

Definition hex_digit (n : Z) : ascii :=
  if n <? 10 then ascii_of_N (Z.to_N (48 + n))
  else ascii_of_N (Z.to_N (87 + n)).

(** Modelled from the spec: [hexlify] of [bpl_lib.helpers.Util], absent
    from the sources; two lower-case hex digits per byte. *)
Fixpoint hexlify (bs : bytes) : string :=
  match bs with
  | [] => EmptyString
  | b :: bs' =>
      String (hex_digit (Z.shiftr (Z_of_byte b) 4))
        (String (hex_digit (Z.land (Z_of_byte b) 15)) (hexlify bs'))
  end.

Definition hex_value (c : ascii) : option Z :=
  let n := Z.of_N (N_of_ascii c) in
  if (48 <=? n) && (n <=? 57) then Some (n - 48)
  else if (97 <=? n) && (n <=? 102) then Some (n - 87)
  else if (65 <=? n) && (n <=? 70) then Some (n - 55)
  else None.

(** Modelled from the spec: [unhexlify] of [bpl_lib.helpers.Util], absent
    from the sources; it decodes pairs of hex digits of either case and
    fails on an odd number of digits or on a character that is no hex
    digit. *)
Fixpoint unhexlify (s : string) : result bytes :=
  match s with
  | EmptyString => Ok []
  | String _ EmptyString => Error MalformedHexError
  | String hi (String lo rest) =>
      match hex_value hi, hex_value lo with
      | Some h, Some l =>
          do tl <- unhexlify rest; Ok (byte_of_Z (16 * h + l) :: tl)
      | _, _ => Error MalformedHexError
      end
  end.

End Util.

(* ------------------------------------------------------------------ *)
(** ** bpl_lib.crypto.Crypto: sha256                                     *)
(* ------------------------------------------------------------------ *)

(** Modelled from the spec: [sha256] of [bpl_lib.crypto.Crypto], absent
    from the sources: the SHA-256 hash primitive, 32 raw bytes (FIPS 180-4),
    on 32-bit words held in [Z] with the wrap-around written out. *)
Module Crypto.

Definition mask32 : Z := 0xffffffff.

Definition add32 (x y : Z) : Z := Z.land (x + y) mask32.

Definition rotr (n x : Z) : Z :=
  Z.lor (Z.shiftr x n) (Z.land (Z.shiftl x (32 - n)) mask32).

Definition xor3 (x y z : Z) : Z := Z.lxor (Z.lxor x y) z.

Definition Ch (x y z : Z) : Z :=
  Z.lxor (Z.land x y) (Z.land (Z.lxor x mask32) z).
Definition Maj (x y z : Z) : Z :=
  xor3 (Z.land x y) (Z.land x z) (Z.land y z).
Definition Sigma0 (x : Z) : Z := xor3 (rotr 2 x) (rotr 13 x) (rotr 22 x).
Definition Sigma1 (x : Z) : Z := xor3 (rotr 6 x) (rotr 11 x) (rotr 25 x).
Definition sigma0 (x : Z) : Z := xor3 (rotr 7 x) (rotr 18 x) (Z.shiftr x 3).
Definition sigma1 (x : Z) : Z := xor3 (rotr 17 x) (rotr 19 x) (Z.shiftr x 10).

(** The primes up to [311], the first 64 of them, by trial division. *)
Definition primes : list Z :=
  fold_left
    (fun ps n =>
       if forallb (fun q => negb (n mod q =? 0)) ps then ps ++ [n] else ps)
    (map Z.of_nat (seq 2 310)) [].

(** The integer part of the [k]-th root of [n], found bit by bit. *)
Fixpoint root_bits (k : Z) (bits : nat) (n r : Z) : Z :=
  match bits with
  | O => r
  | S bits' =>
      let r' := r + 2 ^ Z.of_nat bits' in
      root_bits k bits' n (if r' ^ k <=? n then r' else r)
  end.

(** The first 32 bits of the fractional part of the [k]-th root of [q]. *)
Definition root_fraction (k q : Z) : Z :=
  Z.land (root_bits k 40 (q * 2 ^ (32 * k)) 0) mask32.

(** The round constants come from the cube roots of the first 64 primes,
    the initial hash value from the square roots of the first 8. *)
Definition K : list Z :=
  Eval vm_compute in map (root_fraction 3) primes.

Definition H0 : list Z :=
  Eval vm_compute in map (root_fraction 2) (firstn 8 primes).

(** Message padding: a one bit, zero bytes up to 56 modulo 64, then the
    bit length on 8 bytes, most significant first. *)
Definition pad (msg : bytes) : bytes :=
  let len := Z.of_nat (length msg) in
  msg ++ ["128"%byte] ++ zeros (Z.to_nat ((55 - len) mod 64))
      ++ be_bytes 8 (8 * len).

Definition word_of (b3 b2 b1 b0 : byte) : Z :=
  Z.lor (Z.shiftl (Z_of_byte b3) 24)
    (Z.lor (Z.shiftl (Z_of_byte b2) 16)
       (Z.lor (Z.shiftl (Z_of_byte b1) 8) (Z_of_byte b0))).

Fixpoint words (bs : bytes) : list Z :=
  match bs with
  | b3 :: b2 :: b1 :: b0 :: rest => word_of b3 b2 b1 b0 :: words rest
  | _ => []
  end.

(** The schedule is kept newest word first; [extend n w] adds [n] words. *)
Fixpoint extend (n : nat) (w : list Z) : list Z :=
  match n with
  | O => w
  | S n' =>
      let new :=
        add32 (add32 (sigma1 (nth 1 w 0)) (nth 6 w 0))
              (add32 (sigma0 (nth 14 w 0)) (nth 15 w 0)) in
      extend n' (new :: w)
  end.

Definition schedule (block : list Z) : list Z :=
  rev (extend 48 (rev block)).

Definition round (st : list Z) (kw : Z * Z) : list Z :=
  match st with
  | [a; b; c; d; e; f; g; h] =>
      let t1 := add32 (add32 (add32 h (Sigma1 e)) (Ch e f g))
                      (add32 (fst kw) (snd kw)) in
      let t2 := add32 (Sigma0 a) (Maj a b c) in
      [add32 t1 t2; a; b; c; add32 d t1; e; f; g]
  | _ => st
  end.

Fixpoint zip {A B} (xs : list A) (ys : list B) : list (A * B) :=
  match xs, ys with
  | x :: xs', y :: ys' => (x, y) :: zip xs' ys'
  | _, _ => []
  end.

Definition compress (h : list Z) (block : list Z) : list Z :=
  map (fun p => add32 (fst p) (snd p))
      (zip h (fold_left round (zip K (schedule block)) h)).

Fixpoint blocks (n : nat) (ws : list Z) : list (list Z) :=
  match n with
  | O => []
  | S n' => firstn 16 ws :: blocks n' (skipn 16 ws)
  end.

Definition sha256 (msg : bytes) : bytes :=
  let ws := words (pad msg) in
  let h := fold_left compress (blocks (Nat.div (length ws) 16) ws) H0 in
  concat (map (be_bytes 4) h).

End Crypto.

(* ------------------------------------------------------------------ *)
(** ** bpl_lib.helpers.Util: Buffer                                      *)
(* ------------------------------------------------------------------ *)

(** Modelled from the spec: the [Buffer] class of [bpl_lib.helpers.Util],
    absent from the sources: an append-only byte writer.  [write_byte],
    [write_int] and [write_long] append exactly 1, 4 and 8 bytes, little
    endian and unsigned; a value that does not fit the width has no such
    encoding and is refused; [write_long] of [None] (an unset fee) is
    [MissingFeeError]. *)
Module Buffer.

Definition t := bytes.

Definition new : t := [].

Definition write_bytes (buffer : t) (value : bytes) : t := buffer ++ value.

Definition fits (width : nat) (value : Z) : bool :=
  (0 <=? value) && (value <? 2 ^ (8 * Z.of_nat width)).

Definition write_uint (width : nat) (buffer : t) (value : Z) : result t :=
  if fits width value then Ok (buffer ++ le_bytes width value)
  else Error StructError.

Definition write_byte (buffer : t) (value : Z) : result t :=
  write_uint 1 buffer value.

Definition write_int (buffer : t) (value : Z) : result t :=
  write_uint 4 buffer value.

Definition write_long (buffer : t) (value : option Z) : result t :=
  match value with
  | None => Error MissingFeeError
  | Some v => write_uint 8 buffer v
  end.

Definition to_bytes (buffer : t) : bytes := buffer.

End Buffer.

(* ------------------------------------------------------------------ *)
(** ** Python values and the instance attributes                         *)
(* ------------------------------------------------------------------ *)

#[warnings="-register-all"]
Inductive pyval : Type :=
  | PyNone
  | PyBool (b : bool)
  | PyInt (z : Z)
  | PyStr (s : string)
  | PyDict (items : list (string * pyval)).

Definition py_str (o : option string) : pyval :=
  match o with Some s => PyStr s | None => PyNone end.

Definition py_int (o : option Z) : pyval :=
  match o with Some z => PyInt z | None => PyNone end.

(** [if x:] on an attribute that is [None] or a string: taken for a
    non-empty string only. *)
Definition truthy (x : option string) : bool :=
  match x with
  | Some (String _ _) => true
  | _ => false
  end.

Definition str_of (x : option string) : string :=
  match x with Some s => s | None => EmptyString end.

(** The attributes [__init__] creates, under their names. *)
Record Transaction : Type := mkTransaction {
  _id : option string;
  _type : Z;
  _recipient_id : option string;
  _amount : Z;
  _fee : option Z;
  _asset : pyval;
  _vendor_field : option string;
  _timestamp : Z;
  _requester_public_key : option string;
  _sender_public_key : string;
  _signature : option string;
  _sign_signature : option string
}.

Definition set_signature (self : Transaction) (v : option string) :=
  mkTransaction (_id self) (_type self) (_recipient_id self) (_amount self)
    (_fee self) (_asset self) (_vendor_field self) (_timestamp self)
    (_requester_public_key self) (_sender_public_key self)
    v (_sign_signature self).

Definition set_amount (self : Transaction) (v : Z) :=
  mkTransaction (_id self) (_type self) (_recipient_id self) v
    (_fee self) (_asset self) (_vendor_field self) (_timestamp self)
    (_requester_public_key self) (_sender_public_key self)
    (_signature self) (_sign_signature self).

Definition set_fee (self : Transaction) (v : option Z) :=
  mkTransaction (_id self) (_type self) (_recipient_id self) (_amount self)
    v (_asset self) (_vendor_field self) (_timestamp self)
    (_requester_public_key self) (_sender_public_key self)
    (_signature self) (_sign_signature self).

Definition set_vendor_field (self : Transaction) (v : option string) :=
  mkTransaction (_id self) (_type self) (_recipient_id self) (_amount self)
    (_fee self) (_asset self) v (_timestamp self)
    (_requester_public_key self) (_sender_public_key self)
    (_signature self) (_sign_signature self).

Definition set_sign_signature (self : Transaction) (v : option string) :=
  mkTransaction (_id self) (_type self) (_recipient_id self) (_amount self)
    (_fee self) (_asset self) (_vendor_field self) (_timestamp self)
    (_requester_public_key self) (_sender_public_key self)
    (_signature self) v.

(** What the class calls and does not define: [get_time()] of
    [bpl_lib.time.Slot], [Keys(secret).get_public_key()],
    [base58.b58decode_check], the hook [_handle_transaction_type] that each
    subclass overrides, [Signature(secret).sign(hash)["signature"]] and
    [Signature.verify]. *)
Class Collaborators : Type := {
  get_time : Z;
  get_public_key : string -> string;
  b58decode_check : string -> result bytes;
  _handle_transaction_type : Transaction -> Buffer.t -> result Buffer.t;
  Signature_sign : string -> bytes -> result string;
  Signature_verify : string -> bytes -> option string -> result bool
}.

(** The contract of the hook: it appends to the buffer it is given. *)
Definition appends_only (C : Collaborators) : Prop :=
  forall self buffer buffer',
    _handle_transaction_type self buffer = Ok buffer' ->
    exists asset_bytes, buffer' = buffer ++ asset_bytes.

(** A hook encodes the asset: it does not read the signature attributes. *)
Definition ignores_signatures (C : Collaborators) : Prop :=
  forall self buffer v,
    _handle_transaction_type (set_signature self v) buffer
      = _handle_transaction_type self buffer
    /\ _handle_transaction_type (set_sign_signature self v) buffer
      = _handle_transaction_type self buffer.

(* ------------------------------------------------------------------ *)
(** ** Methods: state transformers over the instance                     *)
(* ------------------------------------------------------------------ *)

(** A call of the signing or of the verification primitive, with the
    arguments it was given. *)
Inductive primitive_call : Type :=
  | CallSign (secret : string) (hash : bytes)
  | CallVerify (public_key : string) (hash : bytes) (signature : option string).

(** A method call ends with a value or an exception, leaves the instance
    in some state (also when it raises), and has called the primitives
    listed, oldest first. *)
Record outcome (A : Type) : Type := mkOutcome {
  value : result A;
  self_after : Transaction;
  calls : list primitive_call
}.
Arguments mkOutcome {A} value self_after calls.
Arguments value {A} o.
Arguments self_after {A} o.
Arguments calls {A} o.

Definition Method (A : Type) : Type := Transaction -> outcome A.

Definition mret {A} (a : A) : Method A :=
  fun self => mkOutcome (Ok a) self [].

Definition mbind {A B} (m : Method A) (f : A -> Method B) : Method B :=
  fun self =>
    let o := m self in
    match value o with
    | Ok a =>
        let o' := f a (self_after o) in
        mkOutcome (value o') (self_after o') (calls o ++ calls o')
    | Error e => mkOutcome (Error e) (self_after o) (calls o)
    end.

Notation "'call' x <- m ; k" := (mbind m (fun x => k))
  (at level 10, x name, m at level 100, k at level 200).

(** A computation that only reads the attributes. *)
Definition reads {A} (f : Transaction -> result A) : Method A :=
  fun self => mkOutcome (f self) self [].

(** An assignment to attributes of [self]. *)
Definition assign (f : Transaction -> Transaction) : Method unit :=
  fun self => mkOutcome (Ok tt) (f self) [].

(** A call of a primitive: it is recorded, and answers [r]. *)
Definition primitive {A} (c : primitive_call) (r : result A) : Method A :=
  fun self => mkOutcome r self [c].

Definition returned {A} (m : Method A) (self : Transaction) : result A :=
  value (m self).

Definition state_after {A} (m : Method A) (self : Transaction) : Transaction :=
  self_after (m self).

Definition calls_of {A} (m : Method A) (self : Transaction) : list primitive_call :=
  calls (m self).

(** The bytes a stored signature adds to the encoding under its switch. *)
Definition stored_bytes (skip : bool) (signature : option string)
    : result bytes :=
  if negb skip && truthy signature then Util.unhexlify (str_of signature)
  else Ok [].

(* ------------------------------------------------------------------ *)
(** ** class Transaction                                                 *)
(* ------------------------------------------------------------------ *)

Section TransactionClass.

Context {C : Collaborators}.

(** [__init__]: the attributes of a new instance. *)
Definition __init__ (type : Z) (secret : string) : Transaction := {|
  _id := None;
  _type := type;
  _recipient_id := None;
  _amount := 0;
  _fee := None;
  _asset := PyDict [];
  _vendor_field := None;
  _timestamp := get_time;
  _requester_public_key := None;
  _sender_public_key := get_public_key secret;
  _signature := None;
  _sign_signature := None
|}.

(** [_handle_signature]: each stored signature is appended when it is not
    skipped and has been computed. *)
Definition _handle_signature (self : Transaction) (buffer : Buffer.t)
    (skip_signature skip_second_signature : bool) : result Buffer.t :=
  do buffer <-
    (if negb skip_signature && truthy (_signature self) then
       do sig <- Util.unhexlify (str_of (_signature self));
       Ok (Buffer.write_bytes buffer sig)
     else Ok buffer);
  do buffer <-
    (if negb skip_second_signature && truthy (_sign_signature self) then
       do sig <- Util.unhexlify (str_of (_sign_signature self));
       Ok (Buffer.write_bytes buffer sig)
     else Ok buffer);
  Ok buffer.

(** [_to_bytes]: the canonical bytes, field after field.  [_type] is an
    integer, so [int(self._type)] is the attribute itself. *)
Definition _to_bytes (skip_signature skip_second_signature : bool)
    : Method bytes :=
  reads (fun self =>
    let buffer := Buffer.new in
    do buffer <- Buffer.write_byte buffer (_type self);
    do buffer <- Buffer.write_int buffer (_timestamp self);
    do key <- Util.unhexlify (_sender_public_key self);
    let buffer := Buffer.write_bytes buffer key in
    do buffer <-
      (if truthy (_requester_public_key self) then
         do key <- Util.unhexlify (str_of (_requester_public_key self));
         Ok (Buffer.write_bytes buffer key)
       else Ok buffer);
    do recipient <-
      (if truthy (_recipient_id self)
       then b58decode_check (str_of (_recipient_id self))
       else py_bytes 21);
    let buffer := Buffer.write_bytes buffer recipient in
    do buffer <-
      (if truthy (_vendor_field self) then
         do vendor_field <- Util.unhexlify (str_of (_vendor_field self));
         do padding <- py_bytes (64 - Z.of_nat (length vendor_field));
         Ok (Buffer.write_bytes buffer (vendor_field ++ padding))
       else
         do padding <- py_bytes 64;
         Ok (Buffer.write_bytes buffer padding));
    do buffer <- Buffer.write_long buffer (Some (_amount self));
    do buffer <- Buffer.write_long buffer (_fee self);
    do buffer <- _handle_transaction_type self buffer;
    do buffer <- _handle_signature self buffer
                   skip_signature skip_second_signature;
    Ok (Buffer.to_bytes buffer)).

(** The buffer when [_to_bytes] comes to the fee: what lines 85 to 108 have
    written, or the exception of the first of them that raises. *)
Definition written_before_fee (self : Transaction) : result Buffer.t :=
  let buffer := Buffer.new in
  do buffer <- Buffer.write_byte buffer (_type self);
  do buffer <- Buffer.write_int buffer (_timestamp self);
  do key <- Util.unhexlify (_sender_public_key self);
  let buffer := Buffer.write_bytes buffer key in
  do buffer <-
    (if truthy (_requester_public_key self) then
       do key <- Util.unhexlify (str_of (_requester_public_key self));
       Ok (Buffer.write_bytes buffer key)
     else Ok buffer);
  do recipient <-
    (if truthy (_recipient_id self)
     then b58decode_check (str_of (_recipient_id self))
     else py_bytes 21);
  let buffer := Buffer.write_bytes buffer recipient in
  do buffer <-
    (if truthy (_vendor_field self) then
       do vendor_field <- Util.unhexlify (str_of (_vendor_field self));
       do padding <- py_bytes (64 - Z.of_nat (length vendor_field));
       Ok (Buffer.write_bytes buffer (vendor_field ++ padding))
     else
       do padding <- py_bytes 64;
       Ok (Buffer.write_bytes buffer padding));
  Buffer.write_long buffer (Some (_amount self)).

(** [_get_hash]: both switches default to [True] in the source; every call
    below writes them out. *)
Definition _get_hash (skip_signature skip_second_signature : bool)
    : Method bytes :=
  call b <- _to_bytes skip_signature skip_second_signature;
  mret (Crypto.sha256 b).

Definition _get_id : Method string :=
  call b <- _to_bytes false false;
  mret (Util.hexlify (Crypto.sha256 b)).

Definition to_dict : Method (gmap string pyval) :=
  reads (fun self => Ok (list_to_map
    [ ("type"%string, PyInt (_type self));
      ("amount"%string, PyInt (_amount self));
      ("fee"%string, py_int (_fee self));
      ("asset"%string, _asset self);
      ("id"%string, py_str (_id self));
      ("recipientId"%string, py_str (_recipient_id self));
      ("venderField"%string, py_str (_vendor_field self));
      ("timestamp"%string, PyInt (_timestamp self));
      ("senderPublicKey"%string, PyStr (_sender_public_key self));
      ("signature"%string, py_str (_signature self));
      ("signSignature"%string, py_str (_sign_signature self)) ])).

(** [_sign]: [self._get_hash()] is the call with both defaults.  The call
    recorded stands for [Signature(secret).sign(hash)] and the lookup of
    ["signature"] in what it returns. *)
Definition _sign (secret : string) : Method pyval :=
  call h <- _get_hash true true;
  call signature <- primitive (CallSign secret h) (Signature_sign secret h);
  call _ <- assign (fun self => set_signature self (Some signature));
  mret PyNone.

Definition _second_sign (secret : string) : Method pyval :=
  call h <- _get_hash false true;
  call signature <- primitive (CallSign secret h) (Signature_sign secret h);
  call _ <- assign (fun self => set_sign_signature self (Some signature));
  mret PyNone.

(** [verify] and [second_verify] have no [return]: the value of the call
    to [Signature.verify] is dropped and the method returns [None]. *)
Definition verify : Method pyval :=
  call public_key <- reads (fun self => Ok (_sender_public_key self));
  call h <- _get_hash false true;
  call signature <- reads (fun self => Ok (_signature self));
  call _ <- primitive (CallVerify public_key h signature)
              (Signature_verify public_key h signature);
  mret PyNone.

Definition second_verify : Method pyval :=
  call public_key <- reads (fun self => Ok (_sender_public_key self));
  call h <- _get_hash false false;
  call signature <- reads (fun self => Ok (_sign_signature self));
  call _ <- primitive (CallVerify public_key h signature)
              (Signature_verify public_key h signature);
  mret PyNone.

End TransactionClass.

(* ------------------------------------------------------------------ *)
(** ** Concrete collaborators                                            *)
(* ------------------------------------------------------------------ *)

Definition ascii_bytes (s : string) : bytes :=
  map (fun c => byte_of_Z (Z.of_N (N_of_ascii c))) (list_ascii_of_string s).

Fixpoint bytes_eqb (xs ys : bytes) : bool :=
  match xs, ys with
  | [], [] => true
  | x :: xs', y :: ys' => Byte.eqb x y && bytes_eqb xs' ys'
  | _, _ => false
  end.

(** The [base58] package: base-58 digits, most significant first, each
    leading [1] a zero byte, and a trailing checksum of four bytes of the
    double SHA-256 of the payload. *)
Module base58.

Definition alphabet : string :=
  "123456789ABCDEFGHJKLMNPQRSTUVWXYZabcdefghijkmnopqrstuvwxyz".

Fixpoint digit_in (c : ascii) (alpha : string) (i : Z) : option Z :=
  match alpha with
  | EmptyString => None
  | String a rest => if Ascii.eqb a c then Some i else digit_in c rest (i + 1)
  end.

Fixpoint number (s : string) (acc : Z) : option Z :=
  match s with
  | EmptyString => Some acc
  | String c rest =>
      match digit_in c alphabet 0 with
      | Some d => number rest (58 * acc + d)
      | None => None
      end
  end.

Fixpoint leading_ones (s : string) : nat :=
  match s with
  | String "1"%char rest => S (leading_ones rest)
  | _ => O
  end.

Fixpoint strip_zeros (bs : bytes) : bytes :=
  match bs with
  | "000"%byte :: rest => strip_zeros rest
  | _ => bs
  end.

Definition b58decode (s : string) : option bytes :=
  match number s 0 with
  | Some n =>
      Some (zeros (leading_ones s)
              ++ strip_zeros (be_bytes (String.length s) n))
  | None => None
  end.

Definition b58decode_check (s : string) : result bytes :=
  match b58decode s with
  | Some raw =>
      let n := (length raw - 4)%nat in
      let payload := firstn n raw in
      let check := skipn n raw in
      if bytes_eqb (firstn 4 (Crypto.sha256 (Crypto.sha256 payload))) check
      then Ok payload
      else Error InvalidAddressError
  | None => Error InvalidAddressError
  end.

End base58.

(** A stand-in for the elliptic-curve collaborators ([Keys], [Signature]),
    used where an example has to run: the public key is a tagged digest of
    the secret, a signature is the digest of the key and of the hash. *)
Module StandIn.

Definition get_public_key (secret : string) : string :=
  Util.hexlify ("002"%byte :: Crypto.sha256 (ascii_bytes secret)).

Definition tag (key : string) (hash : bytes) : result string :=
  do k <- Util.unhexlify key;
  Ok (Util.hexlify (Crypto.sha256 (k ++ hash))).

Definition sign (secret : string) (hash : bytes) : result string :=
  tag (get_public_key secret) hash.

Definition verify (public_key : string) (hash : bytes)
    (signature : option string) : result bool :=
  match signature, tag public_key hash with
  | Some s, Ok expected => Ok (String.eqb s expected)
  | _, _ => Error VerificationError
  end.

End StandIn.

(** The class as it stands: the hook is abstract. *)
Definition base_class : Collaborators := {|
  get_time := 10000000;
  get_public_key := StandIn.get_public_key;
  b58decode_check := base58.b58decode_check;
  _handle_transaction_type := fun _ _ => Error NotImplementedError;
  Signature_sign := StandIn.sign;
  Signature_verify := StandIn.verify
|}.

(** A subclass whose hook appends no asset bytes. *)
Definition no_asset_class : Collaborators := {|
  get_time := 10000000;
  get_public_key := StandIn.get_public_key;
  b58decode_check := base58.b58decode_check;
  _handle_transaction_type := fun _ buffer => Ok buffer;
  Signature_sign := StandIn.sign;
  Signature_verify := StandIn.verify
|}.

(** The transaction of the scenario: what [__init__] leaves, with the
    amount and the fee its subclass sets. *)
Definition scenario_secret : string := "secret passphrase".

Definition scenario : Transaction :=
  set_fee (set_amount (@__init__ no_asset_class 0 scenario_secret) 100000000)
    (Some 10000000).

Definition scenario_bytes : bytes :=
  le_bytes 1 0 ++ le_bytes 4 10000000
    ++ "002"%byte :: Crypto.sha256 (ascii_bytes scenario_secret)
    ++ zeros 21 ++ zeros 64
    ++ le_bytes 8 100000000 ++ le_bytes 8 10000000.

(** The scenario after [_sign], and after [_second_sign] as well. *)
Definition second_secret : string := "second passphrase".

Definition signed_scenario : Transaction :=
  state_after (@_sign no_asset_class scenario_secret) scenario.

Definition twice_signed_scenario : Transaction :=
  state_after (@_second_sign no_asset_class second_secret) signed_scenario.

(** The scenario with the fee left unset and a vendor field of 65 bytes. *)
Definition feeless_wide_vendor : Transaction :=
  set_vendor_field (set_fee scenario None)
    (Some (Util.hexlify (repeat "a"%byte 65))).

(** The scenario with the vendor field [Hello], in hex. *)
Definition hello_vendor : Transaction :=
  set_vendor_field scenario (Some "48656c6c6f"%string).

(** The scenario with a vendor field of exactly 64 bytes, and of 65. *)
Definition full_vendor : Transaction :=
  set_vendor_field scenario (Some (Util.hexlify (repeat "a"%byte 64))).

Definition wide_vendor : Transaction :=
  set_vendor_field scenario (Some (Util.hexlify (repeat "a"%byte 65))).

Definition scenario_key : bytes :=
  "002"%byte :: Crypto.sha256 (ascii_bytes scenario_secret).

(* ================================================================== *)
(** * Properties                                                         *)
(* ================================================================== *)

(** ** The collaborators' models on known vectors *)

Example sha256_constants :
  length Crypto.K = 64%nat
  /\ nth 0 Crypto.K 0 = 0x428a2f98
  /\ nth 63 Crypto.K 0 = 0xc67178f2
  /\ nth 0 Crypto.H0 0 = 0x6a09e667
  /\ nth 7 Crypto.H0 0 = 0x5be0cd19.
Proof. vm_compute. repeat split; reflexivity. Qed.

Example sha256_abc :
  Util.hexlify (Crypto.sha256 (ascii_bytes "abc")) =
  "ba7816bf8f01cfea414140de5dae2223b00361a396177a9cb410ff61f20015ad"%string.
Proof. vm_compute. reflexivity. Qed.

Example sha256_empty :
  Util.hexlify (Crypto.sha256 []) =
  "e3b0c44298fc1c149afbf4c8996fb92427ae41e4649b934ca495991b7852b855"%string.
Proof. vm_compute. reflexivity. Qed.

Example sha256_two_blocks :
  Util.hexlify (Crypto.sha256 (ascii_bytes
    "abcdbcdecdefdefgefghfghighijhijkijkljklmklmnlmnomnopnopq")) =
  "248d6a61d20638b8e5c026930c3e6039a33ce45964ff2167f6ecedd419db06c1"%string.
Proof. vm_compute. reflexivity. Qed.

Example b58decode_check_address :
  base58.b58decode_check "1A1zP1eP5QGefi2DMPTfTL5SLmv7DivfNa" =
  Util.unhexlify "0062e907b15cbf27d5425399ebf6f0fb50ebb88f18".
Proof. vm_compute. reflexivity. Qed.

Example b58decode_check_bad_checksum :
  base58.b58decode_check "1A1zP1eP5QGefi2DMPTfTL5SLmv7DivfNb" =
  Error InvalidAddressError.
Proof. vm_compute. reflexivity. Qed.

Example scenario_attributes :
  scenario = {|
    _id := None;
    _type := 0;
    _recipient_id := None;
    _amount := 100000000;
    _fee := Some 10000000;
    _asset := PyDict [];
    _vendor_field := None;
    _timestamp := 10000000;
    _requester_public_key := None;
    _sender_public_key := StandIn.get_public_key scenario_secret;
    _signature := None;
    _sign_signature := None
  |}.
Proof. reflexivity. Qed.

Example fresh_transaction_has_no_fee :
  _fee (@__init__ no_asset_class 0 scenario_secret) = None
  /\ _signature (@__init__ no_asset_class 0 scenario_secret) = None
  /\ _sign_signature (@__init__ no_asset_class 0 scenario_secret) = None.
Proof. repeat split. Qed.

Example abstract_hook_raises :
  returned (@_to_bytes base_class true true) scenario
    = Error NotImplementedError.
Proof. vm_compute. reflexivity. Qed.

Example scenario_runs :
  returned (@_to_bytes no_asset_class true true) scenario = Ok scenario_bytes
  /\ length scenario_bytes = 139%nat.
Proof. vm_compute. split; reflexivity. Qed.

(* ------------------------------------------------------------------ *)
(** ** The encoder and its two switches                                  *)
(* ------------------------------------------------------------------ *)

Section Encoder.

Context {C : Collaborators}.

Lemma rbind_ok {A B} (r : result A) (f : A -> result B) (b : B) :
  rbind r f = Ok b -> exists a, r = Ok a /\ f a = Ok b.
Proof.
  destruct r as [a|e]; simpl; intros H.
  - exists a. split; [reflexivity | exact H].
  - discriminate H.
Qed.

Lemma stored_bytes_skipped (signature : option string) :
  stored_bytes true signature = Ok [].
Proof. reflexivity. Qed.

Lemma stored_bytes_unset (skip : bool) :
  stored_bytes skip None = Ok [].
Proof. unfold stored_bytes. simpl. rewrite andb_false_r. reflexivity. Qed.

(** [_handle_signature] appends what each stored signature contributes. *)
Lemma handle_signature_appends self buffer s1 s2 :
  _handle_signature self buffer s1 s2 =
    do a <- stored_bytes s1 (_signature self);
    do b <- stored_bytes s2 (_sign_signature self);
    Ok (buffer ++ a ++ b).
Proof.
  unfold _handle_signature, stored_bytes, Buffer.write_bytes.
  destruct (negb s1 && truthy (_signature self)); simpl.
  - destruct (Util.unhexlify (str_of (_signature self))) as [a|e]; simpl;
      [|reflexivity].
    destruct (negb s2 && truthy (_sign_signature self)); simpl.
    + destruct (Util.unhexlify (str_of (_sign_signature self))); simpl;
        [rewrite <- app_assoc|]; reflexivity.
    + rewrite app_nil_r. reflexivity.
  - destruct (negb s2 && truthy (_sign_signature self)); simpl.
    + destruct (Util.unhexlify (str_of (_sign_signature self))); reflexivity.
    + rewrite app_nil_r. reflexivity.
Qed.

(** No reading method assigns to [self] or calls a primitive. *)
Lemma to_bytes_reads_only s1 s2 self :
  state_after (_to_bytes s1 s2) self = self
  /\ calls_of (_to_bytes s1 s2) self = [].
Proof. split; reflexivity. Qed.

(** The encoding under any switches is the encoding with both signatures
    skipped, followed by what the stored signatures contribute. *)
Lemma to_bytes_switches s1 s2 self :
  returned (_to_bytes s1 s2) self =
    do base <- returned (_to_bytes true true) self;
    do a <- stored_bytes s1 (_signature self);
    do b <- stored_bytes s2 (_sign_signature self);
    Ok (base ++ a ++ b).
Proof.
  unfold returned, _to_bytes, reads; cbn [value].
  repeat match goal with
  | |- context [rbind ?r _] =>
      lazymatch r with
      | context [_handle_signature] => fail
      | context [stored_bytes] => fail
      | _ => destruct r; cbn [rbind]; try reflexivity
      end
  end.
  rewrite !handle_signature_appends. rewrite !stored_bytes_skipped.
  cbn [rbind]. unfold Buffer.to_bytes. rewrite !app_nil_r.
  destruct (stored_bytes s1 (_signature self)); cbn [rbind]; [|reflexivity].
  destruct (stored_bytes s2 (_sign_signature self)); reflexivity.
Qed.

(** The fully skipped encoding does not read the signature attributes. *)
Lemma to_bytes_base_set_signature self v :
  ignores_signatures C ->
  returned (_to_bytes true true) (set_signature self v)
    = returned (_to_bytes true true) self
  /\ returned (_to_bytes true true) (set_sign_signature self v)
    = returned (_to_bytes true true) self.
Proof.
  intros Hhook.
  unfold returned, _to_bytes, reads; cbn [value].
  cbn [_type _timestamp _sender_public_key _requester_public_key
       _recipient_id _vendor_field _amount _fee set_signature
       set_sign_signature].
  split;
    repeat match goal with
    | |- context [rbind ?r _] =>
        lazymatch r with
        | context [_handle_transaction_type] => fail
        | _ => destruct r; cbn [rbind]; try reflexivity
        end
    end;
    [ rewrite (proj1 (Hhook self _ v)) | rewrite (proj2 (Hhook self _ v)) ];
    (destruct (_handle_transaction_type self _); cbn [rbind];
     [ rewrite !handle_signature_appends, !stored_bytes_skipped | ]);
    reflexivity.
Qed.

(** ** What each method does, in one step *)

Lemma get_hash_outcome s1 s2 self :
  _get_hash s1 s2 self =
    match returned (_to_bytes s1 s2) self with
    | Ok b => mkOutcome (Ok (Crypto.sha256 b)) self []
    | Error e => mkOutcome (Error e) self []
    end.
Proof.
  unfold _get_hash, mbind, mret, returned, _to_bytes, reads.
  cbn [value self_after calls].
  match goal with |- context [match ?r with _ => _ end] => destruct r end;
    reflexivity.
Qed.

Lemma get_id_outcome self :
  _get_id self =
    match returned (_to_bytes false false) self with
    | Ok b => mkOutcome (Ok (Util.hexlify (Crypto.sha256 b))) self []
    | Error e => mkOutcome (Error e) self []
    end.
Proof.
  unfold _get_id, mbind, mret, returned, _to_bytes, reads.
  cbn [value self_after calls].
  match goal with |- context [match ?r with _ => _ end] => destruct r end;
    reflexivity.
Qed.

Lemma sign_outcome secret self :
  _sign secret self =
    match returned (_to_bytes true true) self with
    | Ok b =>
        let h := Crypto.sha256 b in
        match Signature_sign secret h with
        | Ok sig => mkOutcome (Ok PyNone) (set_signature self (Some sig))
                      [CallSign secret h]
        | Error e => mkOutcome (Error e) self [CallSign secret h]
        end
    | Error e => mkOutcome (Error e) self []
    end.
Proof.
  unfold _sign. unfold mbind at 1. rewrite get_hash_outcome.
  destruct (returned (_to_bytes true true) self) as [b|e];
    cbn [value self_after calls]; [|reflexivity].
  unfold mbind, primitive, assign, mret; cbn [value self_after calls].
  destruct (Signature_sign secret (Crypto.sha256 b)); reflexivity.
Qed.

Lemma second_sign_outcome secret self :
  _second_sign secret self =
    match returned (_to_bytes false true) self with
    | Ok b =>
        let h := Crypto.sha256 b in
        match Signature_sign secret h with
        | Ok sig => mkOutcome (Ok PyNone) (set_sign_signature self (Some sig))
                      [CallSign secret h]
        | Error e => mkOutcome (Error e) self [CallSign secret h]
        end
    | Error e => mkOutcome (Error e) self []
    end.
Proof.
  unfold _second_sign. unfold mbind at 1. rewrite get_hash_outcome.
  destruct (returned (_to_bytes false true) self) as [b|e];
    cbn [value self_after calls]; [|reflexivity].
  unfold mbind, primitive, assign, mret; cbn [value self_after calls].
  destruct (Signature_sign secret (Crypto.sha256 b)); reflexivity.
Qed.

Lemma verify_outcome self :
  verify self =
    match returned (_to_bytes false true) self with
    | Ok b =>
        let h := Crypto.sha256 b in
        let c := CallVerify (_sender_public_key self) h (_signature self) in
        match Signature_verify (_sender_public_key self) h (_signature self) with
        | Ok _ => mkOutcome (Ok PyNone) self [c]
        | Error e => mkOutcome (Error e) self [c]
        end
    | Error e => mkOutcome (Error e) self []
    end.
Proof.
  unfold verify, mbind, reads, primitive, mret.
  cbn [value self_after calls]. rewrite get_hash_outcome.
  destruct (returned (_to_bytes false true) self) as [b|e];
    cbn [value self_after calls]; [|reflexivity].
  destruct (Signature_verify _ _ _); reflexivity.
Qed.

Lemma second_verify_outcome self :
  second_verify self =
    match returned (_to_bytes false false) self with
    | Ok b =>
        let h := Crypto.sha256 b in
        let c := CallVerify (_sender_public_key self) h (_sign_signature self) in
        match Signature_verify (_sender_public_key self) h
                (_sign_signature self) with
        | Ok _ => mkOutcome (Ok PyNone) self [c]
        | Error e => mkOutcome (Error e) self [c]
        end
    | Error e => mkOutcome (Error e) self []
    end.
Proof.
  unfold second_verify, mbind, reads, primitive, mret.
  cbn [value self_after calls]. rewrite get_hash_outcome.
  destruct (returned (_to_bytes false false) self) as [b|e];
    cbn [value self_after calls]; [|reflexivity].
  destruct (Signature_verify _ _ _); reflexivity.
Qed.

End Encoder.

(* ------------------------------------------------------------------ *)
(** ** The identifier                                                    *)
(* ------------------------------------------------------------------ *)

(** C1, as stated, fails: [_get_id] encodes with [_to_bytes(False, False)],
    so a stored signature is part of the bytes it hashes.  On the scenario,
    [_sign] succeeds, the identifier afterwards differs from the identifier
    before, and it is not the digest of the unsigned bytes. *)
Lemma get_id_changes_when_signed :
  returned (@_sign no_asset_class scenario_secret) scenario = Ok PyNone
  /\ returned (@_get_id no_asset_class) signed_scenario
       <> returned (@_get_id no_asset_class) scenario
  /\ returned (@_get_id no_asset_class) signed_scenario
       <> Ok (Util.hexlify (Crypto.sha256 scenario_bytes)).
Proof.
  split; [vm_compute; reflexivity|].
  split; vm_compute; intros H; discriminate H.
Qed.

Section Identifier.

Context {C : Collaborators}.

(** What [_get_id] returns, from the fully skipped encoding and what the
    two stored signatures contribute. *)
Lemma get_id_value self base a b :
  returned (_to_bytes true true) self = Ok base ->
  stored_bytes false (_signature self) = Ok a ->
  stored_bytes false (_sign_signature self) = Ok b ->
  returned _get_id self = Ok (Util.hexlify (Crypto.sha256 (base ++ a ++ b))).
Proof.
  intros Hbase Ha Hb.
  unfold returned at 1. rewrite get_id_outcome.
  rewrite to_bytes_switches, Hbase, Ha, Hb. reflexivity.
Qed.

(** C1 (amended).  [_get_id] is the hex digest of the hash of the canonical
    bytes with no signature section skipped: the unsigned bytes followed by
    the bytes of each stored signature.  It is the digest of the unsigned
    bytes while no signature is stored; after [_sign] (after [_second_sign])
    the bytes it hashes hold the signature just stored. *)
Theorem get_id_hashes_stored_signatures (self : Transaction) (base a b : bytes) :
  returned (_to_bytes true true) self = Ok base ->
  stored_bytes false (_signature self) = Ok a ->
  stored_bytes false (_sign_signature self) = Ok b ->
  returned _get_id self = Ok (Util.hexlify (Crypto.sha256 (base ++ a ++ b)))
  /\ (_signature self = None -> _sign_signature self = None ->
      returned _get_id self = Ok (Util.hexlify (Crypto.sha256 base)))
  /\ (ignores_signatures C ->
      forall secret sig s,
        Signature_sign secret (Crypto.sha256 base) = Ok sig ->
        stored_bytes false (Some sig) = Ok s ->
        returned _get_id (state_after (_sign secret) self)
          = Ok (Util.hexlify (Crypto.sha256 (base ++ s ++ b))))
  /\ (ignores_signatures C ->
      forall secret sig s,
        Signature_sign secret (Crypto.sha256 (base ++ a)) = Ok sig ->
        stored_bytes false (Some sig) = Ok s ->
        returned _get_id (state_after (_second_sign secret) self)
          = Ok (Util.hexlify (Crypto.sha256 (base ++ a ++ s)))).
Proof.
  intros Hbase Ha Hb.
  split; [apply get_id_value; assumption|].
  split; [|split].
  - intros Hs1 Hs2. rewrite Hs1 in Ha. rewrite Hs2 in Hb.
    rewrite stored_bytes_unset in Ha, Hb.
    injection Ha as <-. injection Hb as <-.
    rewrite <- (app_nil_r base).
    change (base ++ []) with (base ++ [] ++ []).
    apply get_id_value; [assumption| |];
      [rewrite Hs1|rewrite Hs2]; apply stored_bytes_unset.
  - intros Hhook secret sig s Hsig Hs.
    unfold state_after. rewrite sign_outcome, Hbase.
    cbn zeta. rewrite Hsig. cbn [self_after].
    apply get_id_value.
    + rewrite (proj1 (to_bytes_base_set_signature self _ Hhook)).
      exact Hbase.
    + exact Hs.
    + exact Hb.
  - intros Hhook secret sig s Hsig Hs.
    unfold state_after. rewrite second_sign_outcome.
    rewrite to_bytes_switches, Hbase, Ha, stored_bytes_skipped.
    cbn [rbind]. rewrite app_nil_r.
    cbn zeta. rewrite Hsig. cbn [self_after].
    apply get_id_value.
    + rewrite (proj2 (to_bytes_base_set_signature self _ Hhook)).
      exact Hbase.
    + exact Ha.
    + exact Hs.
Qed.

End Identifier.

Lemma no_asset_class_ignores_signatures : ignores_signatures no_asset_class.
Proof. intros self buffer v. split; reflexivity. Qed.

Lemma no_asset_class_appends_only : appends_only no_asset_class.
Proof.
  intros self buffer buffer' H. exists []. simpl in H.
  injection H as <-. symmetry. apply app_nil_r.
Qed.

Lemma get_id_hashes_stored_signatures_witness :
  exists a,
    stored_bytes false (_signature signed_scenario) = Ok a
    /\ returned (@_get_id no_asset_class) signed_scenario
         = Ok (Util.hexlify (Crypto.sha256 (scenario_bytes ++ a ++ []))).
Proof.
  eexists. split.
  - vm_compute. reflexivity.
  - refine (proj1 (get_id_hashes_stored_signatures (C := no_asset_class)
                     signed_scenario scenario_bytes _ [] _ _ _)).
    + vm_compute. reflexivity.
    + vm_compute. reflexivity.
    + vm_compute. reflexivity.
Defined.

(* ------------------------------------------------------------------ *)
(** ** Signing                                                           *)
(* ------------------------------------------------------------------ *)

Section Signing.

Context {C : Collaborators}.

(** C8.  [_second_sign] asks the signing primitive for a signature of the
    hash of the canonical bytes followed by the stored first signature, the
    second signature left out, and stores the answer in [_sign_signature];
    with no first signature stored, the hash is of the canonical bytes
    alone, and the call is made all the same. *)
Theorem second_sign_hashes_first_signature
    (self : Transaction) (secret : string) (base a : bytes) :
  returned (_to_bytes true true) self = Ok base ->
  stored_bytes false (_signature self) = Ok a ->
  calls_of (_second_sign secret) self
    = [CallSign secret (Crypto.sha256 (base ++ a))]
  /\ (forall sig,
       Signature_sign secret (Crypto.sha256 (base ++ a)) = Ok sig ->
       returned (_second_sign secret) self = Ok PyNone
       /\ state_after (_second_sign secret) self
            = set_sign_signature self (Some sig))
  /\ (_signature self = None ->
      a = []
      /\ calls_of (_second_sign secret) self
           = [CallSign secret (Crypto.sha256 base)]).
Proof.
  intros Hbase Ha.
  assert (Hrun : returned (_to_bytes false true) self = Ok (base ++ a)).
  { rewrite to_bytes_switches, Hbase, Ha, stored_bytes_skipped.
    cbn [rbind]. rewrite app_nil_r. reflexivity. }
  assert (Hcalls : calls_of (_second_sign secret) self
                   = [CallSign secret (Crypto.sha256 (base ++ a))]).
  { unfold calls_of. rewrite second_sign_outcome, Hrun. cbn zeta.
    destruct (Signature_sign secret _); reflexivity. }
  split; [exact Hcalls|]. split.
  - intros sig Hsig. unfold returned, state_after.
    rewrite second_sign_outcome, Hrun. cbn zeta. rewrite Hsig.
    split; reflexivity.
  - intros Hnone. rewrite Hnone, stored_bytes_unset in Ha.
    injection Ha as <-. split; [reflexivity|].
    rewrite Hcalls, app_nil_r. reflexivity.
Qed.

(** What [_sign] asks of the signing primitive. *)
Lemma sign_hashes_unsigned_bytes self secret base :
  returned (_to_bytes true true) self = Ok base ->
  calls_of (_sign secret) self = [CallSign secret (Crypto.sha256 base)].
Proof.
  intros Hbase. unfold calls_of. rewrite sign_outcome, Hbase. cbn zeta.
  destruct (Signature_sign secret _); reflexivity.
Qed.

End Signing.

Lemma second_sign_hashes_first_signature_witness :
  exists a sig,
    stored_bytes false (_signature signed_scenario) = Ok a
    /\ a <> []
    /\ calls_of (@_second_sign no_asset_class second_secret) signed_scenario
         = [CallSign second_secret (Crypto.sha256 (scenario_bytes ++ a))]
    /\ state_after (@_second_sign no_asset_class second_secret)
         signed_scenario
         = set_sign_signature signed_scenario (Some sig).
Proof.
  eexists. eexists.
  split; [vm_compute; reflexivity|].
  split; [intros H; discriminate H|].
  pose proof (second_sign_hashes_first_signature (C := no_asset_class)
                signed_scenario second_secret scenario_bytes _
                ltac:(vm_compute; reflexivity)
                ltac:(vm_compute; reflexivity)) as [Hcalls [Hstore _]].
  split; [exact Hcalls|].
  apply Hstore. vm_compute. reflexivity.
Defined.

(* ------------------------------------------------------------------ *)
(** ** Verification                                                      *)
(* ------------------------------------------------------------------ *)

Section Verification.

Context {C : Collaborators}.

(** [verify] and [second_verify] return [None] whenever they return. *)
Lemma verify_returns_none self v :
  returned verify self = Ok v \/ returned second_verify self = Ok v ->
  v = PyNone.
Proof.
  unfold returned. rewrite verify_outcome, second_verify_outcome.
  intros [H|H];
    repeat match type of H with
    | context [match ?r with _ => _ end] => destruct r; cbn in H
    end;
    congruence.
Qed.

(** What [verify] asks of the verification primitive. *)
Lemma verify_hashes_first_signature self base a :
  returned (_to_bytes true true) self = Ok base ->
  stored_bytes false (_signature self) = Ok a ->
  calls_of verify self
    = [CallVerify (_sender_public_key self) (Crypto.sha256 (base ++ a))
         (_signature self)].
Proof.
  intros Hbase Ha. unfold calls_of. rewrite verify_outcome.
  rewrite to_bytes_switches, Hbase, Ha, stored_bytes_skipped.
  cbn [rbind]. rewrite app_nil_r. cbn zeta.
  destruct (Signature_verify _ _ _); reflexivity.
Qed.

(** What [second_verify] asks of the verification primitive: the hash is
    of the unsigned bytes followed by the stored first signature and by
    the stored second signature. *)
Lemma second_verify_hashes_both_signatures
    (self : Transaction) (base a b : bytes) :
  returned (_to_bytes true true) self = Ok base ->
  stored_bytes false (_signature self) = Ok a ->
  stored_bytes false (_sign_signature self) = Ok b ->
  calls_of second_verify self
    = [CallVerify (_sender_public_key self)
         (Crypto.sha256 (base ++ a ++ b)) (_sign_signature self)]
  /\ state_after second_verify self = self.
Proof.
  intros Hbase Ha Hb. unfold calls_of, state_after.
  rewrite second_verify_outcome.
  rewrite to_bytes_switches, Hbase, Ha, Hb. cbn [rbind]. cbn zeta.
  destruct (Signature_verify _ _ _); split; reflexivity.
Qed.

End Verification.

(** C2, on the scenario signed twice.  [_second_sign] had the unsigned
    bytes followed by the first signature hashed, as line 164 asks with
    [_get_hash(False, True)]; [second_verify], with [_get_hash(False,
    False)] at line 185, has those bytes followed by the second signature
    itself hashed.  The hash it hands to the primitive is then neither the
    hash of the fully unsigned bytes nor the hash that was signed, and it
    returns [None]. *)
Lemma second_verify_on_twice_signed_scenario :
  exists sig1 s1 sig2 s2,
    _signature twice_signed_scenario = Some sig1
    /\ Util.unhexlify sig1 = Ok s1
    /\ _sign_signature twice_signed_scenario = Some sig2
    /\ Util.unhexlify sig2 = Ok s2
    /\ s2 <> []
    /\ returned (@_to_bytes no_asset_class true true) twice_signed_scenario
         = Ok scenario_bytes
    /\ calls_of (@_second_sign no_asset_class second_secret) signed_scenario
         = [CallSign second_secret (Crypto.sha256 (scenario_bytes ++ s1))]
    /\ calls_of (@second_verify no_asset_class) twice_signed_scenario
         = [CallVerify (_sender_public_key twice_signed_scenario)
              (Crypto.sha256 (scenario_bytes ++ s1 ++ s2)) (Some sig2)]
    /\ Crypto.sha256 (scenario_bytes ++ s1 ++ s2)
         <> Crypto.sha256 scenario_bytes
    /\ Crypto.sha256 (scenario_bytes ++ s1 ++ s2)
         <> Crypto.sha256 (scenario_bytes ++ s1)
    /\ returned (@second_verify no_asset_class) twice_signed_scenario
         = Ok PyNone.
Proof.
  eexists. eexists. eexists. eexists.
  split; [vm_compute; reflexivity|].
  split; [vm_compute; reflexivity|].
  split; [vm_compute; reflexivity|].
  split; [vm_compute; reflexivity|].
  split; [intros H; discriminate H|].
  split; [vm_compute; reflexivity|].
  split; [vm_compute; reflexivity|].
  split; [vm_compute; reflexivity|].
  split; [vm_compute; intros H; discriminate H|].
  split; [vm_compute; intros H; discriminate H|].
  vm_compute. reflexivity.
Qed.

(** C3, on the scenario once signed.  [_sign] had the unsigned bytes
    hashed; [verify] has the unsigned bytes followed by the stored
    signature hashed, hands that other hash to the primitive, and returns
    [None].  The primitive accepts the signature against the hash that was
    signed and answers [False] against the hash [verify] hands it. *)
Lemma verify_on_signed_scenario :
  exists sig s,
    _signature signed_scenario = Some sig
    /\ Util.unhexlify sig = Ok s
    /\ s <> []
    /\ calls_of (@_sign no_asset_class scenario_secret) scenario
         = [CallSign scenario_secret (Crypto.sha256 scenario_bytes)]
    /\ calls_of (@verify no_asset_class) signed_scenario
         = [CallVerify (_sender_public_key signed_scenario)
              (Crypto.sha256 (scenario_bytes ++ s)) (Some sig)]
    /\ Crypto.sha256 (scenario_bytes ++ s) <> Crypto.sha256 scenario_bytes
    /\ returned (@verify no_asset_class) signed_scenario = Ok PyNone
    /\ StandIn.verify (_sender_public_key signed_scenario)
         (Crypto.sha256 scenario_bytes) (Some sig) = Ok true
    /\ StandIn.verify (_sender_public_key signed_scenario)
         (Crypto.sha256 (scenario_bytes ++ s)) (Some sig) = Ok false.
Proof.
  eexists. eexists.
  split; [vm_compute; reflexivity|].
  split; [vm_compute; reflexivity|].
  split; [intros H; discriminate H|].
  split; [vm_compute; reflexivity|].
  split; [vm_compute; reflexivity|].
  split; [vm_compute; intros H; discriminate H|].
  split; [vm_compute; reflexivity|].
  split; vm_compute; reflexivity.
Qed.

(* ------------------------------------------------------------------ *)
(** ** The switches on a transaction without signatures                  *)
(* ------------------------------------------------------------------ *)

Section Unsigned.

Context {C : Collaborators}.

(** C10.  With neither signature stored, the four combinations of the two
    switches give one and the same result, so [_get_id], [_get_hash] under
    any switches and [_sign] all hash the fully unsigned bytes. *)
Theorem unsigned_encoding_ignores_switches (self : Transaction) :
  _signature self = None ->
  _sign_signature self = None ->
  (forall s1 s2 s1' s2',
     returned (_to_bytes s1 s2) self = returned (_to_bytes s1' s2') self)
  /\ (forall unsigned,
        returned (_to_bytes true true) self = Ok unsigned ->
        returned _get_id self = Ok (Util.hexlify (Crypto.sha256 unsigned))
        /\ (forall s1 s2,
              returned (_get_hash s1 s2) self = Ok (Crypto.sha256 unsigned))
        /\ (forall secret,
              calls_of (_sign secret) self
                = [CallSign secret (Crypto.sha256 unsigned)])).
Proof.
  intros Hs1 Hs2.
  assert (Hany : forall s1 s2,
            returned (_to_bytes s1 s2) self
              = returned (_to_bytes true true) self).
  { intros s1 s2. rewrite to_bytes_switches, Hs1, Hs2, !stored_bytes_unset.
    destruct (returned (_to_bytes true true) self) as [base|e];
      cbn [rbind]; [rewrite app_nil_r|]; reflexivity. }
  split.
  - intros s1 s2 s1' s2'. rewrite (Hany s1 s2), (Hany s1' s2'). reflexivity.
  - intros unsigned Hbase. split; [|split].
    + unfold returned at 1. rewrite get_id_outcome, Hany, Hbase. reflexivity.
    + intros s1 s2. unfold returned at 1.
      rewrite get_hash_outcome, Hany, Hbase. reflexivity.
    + intros secret. apply sign_hashes_unsigned_bytes. exact Hbase.
Qed.

(** C4 (amended).  With no signature stored, encoding with
    [skip_signature=False] raises nothing of its own and adds no byte: it
    gives what encoding with [skip_signature=True] gives, the signature
    section silently left out. *)
Theorem unset_signature_is_silently_omitted (self : Transaction) :
  _signature self = None ->
  forall s2,
    returned (_to_bytes false s2) self = returned (_to_bytes true s2) self
    /\ (forall out,
          returned (_to_bytes true s2) self = Ok out ->
          returned (_to_bytes false s2) self = Ok out).
Proof.
  intros Hs1 s2.
  assert (Heq : returned (_to_bytes false s2) self
                = returned (_to_bytes true s2) self).
  { rewrite (to_bytes_switches false s2), Hs1, stored_bytes_unset.
    symmetry. rewrite (to_bytes_switches true s2), stored_bytes_skipped.
    reflexivity. }
  split; [exact Heq|].
  intros out Hout. rewrite Heq. exact Hout.
Qed.

End Unsigned.

Lemma unsigned_encoding_ignores_switches_witness :
  returned (@_to_bytes no_asset_class false false) scenario
    = returned (@_to_bytes no_asset_class true true) scenario
  /\ returned (@_get_id no_asset_class) scenario
       = Ok (Util.hexlify (Crypto.sha256 scenario_bytes)).
Proof.
  pose proof (unsigned_encoding_ignores_switches (C := no_asset_class)
                scenario eq_refl eq_refl) as [Hsame Hhash].
  split.
  - apply Hsame.
  - apply (Hhash scenario_bytes). vm_compute. reflexivity.
Defined.

(** C4, as stated, fails: the scenario has no signature stored, and
    encoding it with [skip_signature=False] returns the 139 bytes. *)
Lemma unsigned_include_switch_raises_nothing :
  _signature scenario = None
  /\ returned (@_to_bytes no_asset_class false true) scenario
       = Ok scenario_bytes
  /\ returned (@_to_bytes no_asset_class false false) scenario
       = Ok scenario_bytes.
Proof.
  split; [reflexivity|]. split; vm_compute; reflexivity.
Qed.

Lemma unset_signature_is_silently_omitted_witness :
  returned (@_to_bytes no_asset_class false true) scenario
    = returned (@_to_bytes no_asset_class true true) scenario.
Proof.
  exact (proj1 (unset_signature_is_silently_omitted (C := no_asset_class)
                  scenario eq_refl true)).
Defined.

(* ------------------------------------------------------------------ *)
(** ** The fee                                                           *)
(* ------------------------------------------------------------------ *)

Section Fee.

Context {C : Collaborators}.

(** [_to_bytes] is [written_before_fee], then the fee, the hook and the
    signatures. *)
Lemma to_bytes_from_fee s1 s2 self :
  returned (_to_bytes s1 s2) self =
    do buffer <- written_before_fee self;
    do buffer <- Buffer.write_long buffer (_fee self);
    do buffer <- _handle_transaction_type self buffer;
    do buffer <- _handle_signature self buffer s1 s2;
    Ok (Buffer.to_bytes buffer).
Proof.
  unfold returned, _to_bytes, written_before_fee, reads; cbn [value].
  repeat match goal with
  | |- context [rbind ?r _] =>
      lazymatch r with
      | context [rbind] => fail
      | _ => destruct r; cbn [rbind]; try reflexivity
      end
  end.
Qed.

(** The order in which the fields before the fee fail: a sender key that
    does not decode raises before a vendor field that is too long. *)
Lemma written_before_fee_first_failure self e :
  Buffer.fits 1 (_type self) = true ->
  Buffer.fits 4 (_timestamp self) = true ->
  Util.unhexlify (_sender_public_key self) = Error e ->
  written_before_fee self = Error e.
Proof.
  intros H1 H4 Hkey. unfold written_before_fee, Buffer.write_byte,
    Buffer.write_int, Buffer.write_uint.
  rewrite H1. cbn [rbind]. rewrite H4. cbn [rbind]. rewrite Hkey.
  reflexivity.
Qed.

(** C5 (amended).  With the fee unset, encoding returns no bytes under any
    switches: it raises.  When the fields that [_to_bytes] writes before
    the fee (type, timestamp, sender key, requester key, recipient, vendor
    field, amount) are all written, what it raises is [MissingFeeError],
    whatever the hook does; this is so in particular when the same
    transaction encodes once a fee is set.  Otherwise it raises what the
    first of those fields that fails raises. *)
Theorem unset_fee_never_encodes (self : Transaction) :
  _fee self = None ->
  forall s1 s2,
    (exists e, returned (_to_bytes s1 s2) self = Error e)
    /\ (forall buffer,
          written_before_fee self = Ok buffer ->
          returned (_to_bytes s1 s2) self = Error MissingFeeError)
    /\ (forall e,
          written_before_fee self = Error e ->
          returned (_to_bytes s1 s2) self = Error e)
    /\ (forall fee s1' s2' out,
          returned (_to_bytes s1' s2') (set_fee self (Some fee)) = Ok out ->
          returned (_to_bytes s1 s2) self = Error MissingFeeError).
Proof.
  intros Hfee s1 s2.
  assert (Hok : forall buffer,
            written_before_fee self = Ok buffer ->
            returned (_to_bytes s1 s2) self = Error MissingFeeError).
  { intros buffer H. rewrite to_bytes_from_fee, H, Hfee. reflexivity. }
  assert (Herr : forall e,
            written_before_fee self = Error e ->
            returned (_to_bytes s1 s2) self = Error e).
  { intros e H. rewrite to_bytes_from_fee, H. reflexivity. }
  split; [|split; [exact Hok|split; [exact Herr|]]].
  - destruct (written_before_fee self) as [buffer|e] eqn:H.
    + exists MissingFeeError. apply (Hok buffer). reflexivity.
    + exists e. apply Herr. reflexivity.
  - intros fee s1' s2' out H. rewrite to_bytes_from_fee in H.
    apply rbind_ok in H as (buffer & Hbefore & _).
    apply (Hok buffer). exact Hbefore.
Qed.

End Fee.

(** C5, as stated, fails: with the fee unset and a vendor field of 65
    bytes, [bytes(64 - 65)] raises [ValueError] before the fee is
    reached. *)
Lemma unset_fee_can_raise_another_error :
  _fee feeless_wide_vendor = None
  /\ returned (@_to_bytes no_asset_class true true) feeless_wide_vendor
       = Error ValueError
  /\ returned (@_to_bytes no_asset_class true true) feeless_wide_vendor
       <> Error MissingFeeError.
Proof.
  split; [reflexivity|].
  split; [vm_compute; reflexivity|].
  vm_compute. intros H. discriminate H.
Qed.

Lemma unset_fee_never_encodes_witness :
  _fee (@__init__ base_class 0 scenario_secret) = None
  /\ returned (@_to_bytes base_class true true)
        (@__init__ base_class 0 scenario_secret)
       = Error MissingFeeError
  /\ returned (@_to_bytes no_asset_class false false)
        (@__init__ no_asset_class 0 scenario_secret)
       = Error MissingFeeError
  /\ _fee feeless_wide_vendor = None
  /\ returned (@_to_bytes no_asset_class true true) feeless_wide_vendor
       = Error ValueError.
Proof.
  split; [reflexivity|]. split; [|split; [|split; [reflexivity|]]].
  - eapply (proj1 (proj2 (unset_fee_never_encodes (C := base_class)
                            (@__init__ base_class 0 scenario_secret)
                            eq_refl true true))).
    vm_compute. reflexivity.
  - refine (proj2 (proj2 (proj2 (unset_fee_never_encodes
                                   (C := no_asset_class)
                                   (@__init__ no_asset_class 0
                                      scenario_secret)
                                   eq_refl false false)))
              10000000 true true _ _).
    vm_compute. reflexivity.
  - apply (proj1 (proj2 (proj2 (unset_fee_never_encodes
                                  (C := no_asset_class)
                                  feeless_wide_vendor eq_refl true true)))).
    vm_compute. reflexivity.
Defined.

(* ------------------------------------------------------------------ *)
(** ** The placeholders                                                  *)
(* ------------------------------------------------------------------ *)

Section Placeholders.

Context {C : Collaborators}.

Lemma write_uint_ok width buffer v b :
  Buffer.write_uint width buffer v = Ok b -> b = buffer ++ le_bytes width v.
Proof.
  unfold Buffer.write_uint. destruct (Buffer.fits width v); intros H.
  - injection H as <-. reflexivity.
  - discriminate H.
Qed.

Lemma write_long_ok buffer v b :
  Buffer.write_long buffer v = Ok b ->
  exists z, v = Some z /\ b = buffer ++ le_bytes 8 z.
Proof.
  destruct v as [z|]; cbn [Buffer.write_long]; intros H.
  - exists z. split; [reflexivity|]. apply write_uint_ok. exact H.
  - discriminate H.
Qed.

Lemma py_bytes_ok n bs :
  py_bytes n = Ok bs -> 0 <= n /\ bs = zeros (Z.to_nat n).
Proof.
  unfold py_bytes. destruct (n <? 0) eqn:Hn; intros H.
  - discriminate H.
  - injection H as <-. split; [lia|reflexivity].
Qed.

Lemma truthy_some_false v : truthy (Some v) = false -> v = EmptyString.
Proof. destruct v; simpl; [reflexivity|discriminate]. Qed.

Lemma length_zeros n : length (zeros n) = n.
Proof. apply repeat_length. Qed.

(** The vendor field section, as [_to_bytes] computes it. *)
Lemma vendor_section_ok self buffer buffer' :
  (if truthy (_vendor_field self) then
     do vendor_field <- Util.unhexlify (str_of (_vendor_field self));
     do padding <- py_bytes (64 - Z.of_nat (length vendor_field));
     Ok (Buffer.write_bytes buffer (vendor_field ++ padding))
   else
     do padding <- py_bytes 64;
     Ok (Buffer.write_bytes buffer padding)) = Ok buffer' ->
  exists vendor,
    buffer' = buffer ++ vendor
    /\ length vendor = 64%nat
    /\ (_vendor_field self = None -> vendor = zeros 64)
    /\ (forall v raw,
          _vendor_field self = Some v -> Util.unhexlify v = Ok raw ->
          (length raw <= 64)%nat
          /\ vendor = raw ++ zeros (64 - length raw)).
Proof.
  destruct (truthy (_vendor_field self)) eqn:Htruthy; intros H.
  - apply rbind_ok in H as (raw & Hraw & H).
    apply rbind_ok in H as (padding & Hpad & H).
    injection H as <-. apply py_bytes_ok in Hpad as [Hle ->].
    exists (raw ++ zeros (Z.to_nat (64 - Z.of_nat (length raw)))).
    split; [reflexivity|]. split; [|split].
    + rewrite length_app, length_zeros. lia.
    + intros Hnone. rewrite Hnone in Htruthy. discriminate Htruthy.
    + intros v raw' Hv Hraw'. rewrite Hv in Hraw. simpl in Hraw.
      rewrite Hraw' in Hraw. injection Hraw as ->.
      split; [lia|]. f_equal. f_equal. lia.
  - apply rbind_ok in H as (padding & Hpad & H).
    injection H as <-. apply py_bytes_ok in Hpad as [_ ->].
    exists (zeros 64). split; [reflexivity|].
    split; [reflexivity|]. split; [reflexivity|].
    intros v raw Hv Hraw. rewrite Hv in Htruthy.
    apply truthy_some_false in Htruthy. subst v.
    simpl in Hraw. injection Hraw as <-. split; [simpl; lia|reflexivity].
Qed.

Lemma write_uint_fits width buffer v :
  Buffer.fits width v = true ->
  Buffer.write_uint width buffer v = Ok (buffer ++ le_bytes width v).
Proof. intros H. unfold Buffer.write_uint. rewrite H. reflexivity. Qed.

(** The three optional sections, as [_to_bytes] computes them, when they
    are written. *)
Lemma requester_step self buffer requester :
  (if truthy (_requester_public_key self)
   then Util.unhexlify (str_of (_requester_public_key self)) = Ok requester
   else requester = []) ->
  (if truthy (_requester_public_key self) then
     do key <- Util.unhexlify (str_of (_requester_public_key self));
     Ok (Buffer.write_bytes buffer key)
   else Ok buffer) = Ok (buffer ++ requester).
Proof.
  destruct (truthy (_requester_public_key self)); intros H.
  - rewrite H. reflexivity.
  - rewrite H, app_nil_r. reflexivity.
Qed.

Lemma recipient_step self recipient :
  (_recipient_id self = None /\ recipient = zeros 21
   \/ truthy (_recipient_id self) = true
      /\ b58decode_check (str_of (_recipient_id self)) = Ok recipient) ->
  (if truthy (_recipient_id self)
   then b58decode_check (str_of (_recipient_id self))
   else py_bytes 21) = Ok recipient.
Proof.
  intros [[Hnone ->]|[Htruthy Hdecode]].
  - rewrite Hnone. reflexivity.
  - rewrite Htruthy. exact Hdecode.
Qed.

Lemma vendor_step self buffer vendor :
  (_vendor_field self = None /\ vendor = zeros 64
   \/ exists v raw,
        _vendor_field self = Some v /\ Util.unhexlify v = Ok raw
        /\ (length raw <= 64)%nat
        /\ vendor = raw ++ zeros (64 - length raw)) ->
  (if truthy (_vendor_field self) then
     do vendor_field <- Util.unhexlify (str_of (_vendor_field self));
     do padding <- py_bytes (64 - Z.of_nat (length vendor_field));
     Ok (Buffer.write_bytes buffer (vendor_field ++ padding))
   else
     do padding <- py_bytes 64;
     Ok (Buffer.write_bytes buffer padding)) = Ok (buffer ++ vendor).
Proof.
  intros [[Hnone ->]|(v & raw & Hv & Hraw & Hle & ->)].
  - rewrite Hnone. reflexivity.
  - rewrite Hv. destruct v as [|c v'].
    + simpl in Hraw. injection Hraw as <-. reflexivity.
    + cbn [truthy str_of]. rewrite Hraw. cbn [rbind].
      unfold py_bytes.
      destruct (64 - Z.of_nat (length raw) <? 0) eqn:Hneg; [lia|].
      cbn [rbind]. unfold Buffer.write_bytes, zeros.
      replace (Z.to_nat (64 - Z.of_nat (length raw)))
        with (64 - length raw)%nat by lia.
      reflexivity.
Qed.

Lemma vendor_step_wide self buffer v raw :
  _vendor_field self = Some v ->
  Util.unhexlify v = Ok raw ->
  (64 < length raw)%nat ->
  (if truthy (_vendor_field self) then
     do vendor_field <- Util.unhexlify (str_of (_vendor_field self));
     do padding <- py_bytes (64 - Z.of_nat (length vendor_field));
     Ok (Buffer.write_bytes buffer (vendor_field ++ padding))
   else
     do padding <- py_bytes 64;
     Ok (Buffer.write_bytes buffer padding)) = Error ValueError.
Proof.
  intros Hv Hraw Hwide. rewrite Hv. destruct v as [|c v'].
  - simpl in Hraw. injection Hraw as <-. simpl in Hwide. lia.
  - cbn [truthy str_of]. rewrite Hraw. cbn [rbind].
    unfold py_bytes.
    destruct (64 - Z.of_nat (length raw) <? 0) eqn:Hneg; [reflexivity|lia].
Qed.

(** Written section by section, the encoding is returned: no section is
    refused. *)
Lemma encoding_of_sections self s1 s2
    key requester recipient vendor fee asset a b :
  Buffer.fits 1 (_type self) = true ->
  Buffer.fits 4 (_timestamp self) = true ->
  Util.unhexlify (_sender_public_key self) = Ok key ->
  (if truthy (_requester_public_key self)
   then Util.unhexlify (str_of (_requester_public_key self)) = Ok requester
   else requester = []) ->
  (_recipient_id self = None /\ recipient = zeros 21
   \/ truthy (_recipient_id self) = true
      /\ b58decode_check (str_of (_recipient_id self)) = Ok recipient) ->
  (_vendor_field self = None /\ vendor = zeros 64
   \/ exists v raw,
        _vendor_field self = Some v /\ Util.unhexlify v = Ok raw
        /\ (length raw <= 64)%nat
        /\ vendor = raw ++ zeros (64 - length raw)) ->
  Buffer.fits 8 (_amount self) = true ->
  _fee self = Some fee ->
  Buffer.fits 8 fee = true ->
  _handle_transaction_type self
    (le_bytes 1 (_type self) ++ le_bytes 4 (_timestamp self)
       ++ key ++ requester ++ recipient ++ vendor
       ++ le_bytes 8 (_amount self) ++ le_bytes 8 fee)
    = Ok ((le_bytes 1 (_type self) ++ le_bytes 4 (_timestamp self)
             ++ key ++ requester ++ recipient ++ vendor
             ++ le_bytes 8 (_amount self) ++ le_bytes 8 fee) ++ asset) ->
  stored_bytes s1 (_signature self) = Ok a ->
  stored_bytes s2 (_sign_signature self) = Ok b ->
  returned (_to_bytes s1 s2) self
    = Ok ((le_bytes 1 (_type self) ++ le_bytes 4 (_timestamp self)
             ++ key ++ requester ++ recipient ++ vendor
             ++ le_bytes 8 (_amount self) ++ le_bytes 8 fee)
            ++ asset ++ a ++ b).
Proof.
  intros H1 H4 Hkey Hreq Hrec Hvendor Hamount Hfee Hfits Hhook Ha Hb.
  unfold returned, _to_bytes, reads; cbn [value].
  unfold Buffer.write_byte, Buffer.write_int.
  rewrite (write_uint_fits _ _ _ H1). cbn [rbind].
  rewrite (write_uint_fits _ _ _ H4). cbn [rbind].
  rewrite Hkey. cbn [rbind]. cbv zeta.
  rewrite (requester_step self _ requester Hreq). cbn [rbind].
  rewrite (recipient_step self recipient Hrec). cbn [rbind].
  rewrite (vendor_step self _ vendor Hvendor). cbn [rbind].
  cbn [Buffer.write_long]. rewrite (write_uint_fits _ _ _ Hamount).
  cbn [rbind]. rewrite Hfee. cbn [Buffer.write_long].
  rewrite (write_uint_fits _ _ _ Hfits). cbn [rbind].
  unfold Buffer.write_bytes, Buffer.new. cbn [app].
  rewrite <- !app_assoc. rewrite <- !app_assoc in Hhook.
  rewrite Hhook. cbn [rbind].
  rewrite handle_signature_appends, Ha, Hb. cbn [rbind].
  unfold Buffer.to_bytes. rewrite <- !app_assoc. reflexivity.
Qed.

(** A vendor field of more than 64 bytes is what makes the encoding
    raise, with the [ValueError] of [bytes] of a negative count. *)
Lemma wide_vendor_raises self s1 s2 key requester recipient v raw :
  Buffer.fits 1 (_type self) = true ->
  Buffer.fits 4 (_timestamp self) = true ->
  Util.unhexlify (_sender_public_key self) = Ok key ->
  (if truthy (_requester_public_key self)
   then Util.unhexlify (str_of (_requester_public_key self)) = Ok requester
   else requester = []) ->
  (_recipient_id self = None /\ recipient = zeros 21
   \/ truthy (_recipient_id self) = true
      /\ b58decode_check (str_of (_recipient_id self)) = Ok recipient) ->
  _vendor_field self = Some v ->
  Util.unhexlify v = Ok raw ->
  (64 < length raw)%nat ->
  returned (_to_bytes s1 s2) self = Error ValueError.
Proof.
  intros H1 H4 Hkey Hreq Hrec Hv Hraw Hwide.
  unfold returned, _to_bytes, reads; cbn [value].
  unfold Buffer.write_byte, Buffer.write_int.
  rewrite (write_uint_fits _ _ _ H1). cbn [rbind].
  rewrite (write_uint_fits _ _ _ H4). cbn [rbind].
  rewrite Hkey. cbn [rbind]. cbv zeta.
  rewrite (requester_step self _ requester Hreq). cbn [rbind].
  rewrite (recipient_step self recipient Hrec). cbn [rbind].
  rewrite (vendor_step_wide self _ v raw Hv Hraw Hwide). reflexivity.
Qed.


(** C6.  In every encoding the recipient section is 21 zero bytes when no
    recipient is set, the vendor field section is 64 zero bytes when no
    vendor field is set, and for a vendor field that decodes to [L] bytes,
    [L <= 64], it is those bytes followed by [64 - L] zero bytes; a vendor
    field that decodes to more than 64 bytes is rejected.  The sections
    stand after the type, the timestamp and the keys, and before the amount
    and the fee.

    The first two parts read the sections off an encoding that was
    returned.  The third part says that the encoding is returned: with
    those sections, whenever the other fields are written, the hook
    appends and the signatures asked for decode, so that neither an absent
    recipient, nor an absent vendor field, nor a vendor field of any length
    up to 64 is refused.  The last part says that a longer vendor field
    is what raises, with the [ValueError] of [bytes]. *)
Theorem placeholder_sections (self : Transaction) (s1 s2 : bool) :
  appends_only C ->
  (forall out,
     returned (_to_bytes s1 s2) self = Ok out ->
     exists key requester recipient vendor fee tail,
       out = le_bytes 1 (_type self) ++ le_bytes 4 (_timestamp self)
               ++ key ++ requester ++ recipient ++ vendor
               ++ le_bytes 8 (_amount self) ++ le_bytes 8 fee ++ tail
       /\ Util.unhexlify (_sender_public_key self) = Ok key
       /\ (_requester_public_key self = None -> requester = [])
       /\ (_recipient_id self = None -> recipient = zeros 21)
       /\ length vendor = 64%nat
       /\ (_vendor_field self = None -> vendor = zeros 64)
       /\ (forall v raw,
             _vendor_field self = Some v -> Util.unhexlify v = Ok raw ->
             (length raw <= 64)%nat
             /\ vendor = raw ++ zeros (64 - length raw)))
  /\ (forall v raw,
        _vendor_field self = Some v -> Util.unhexlify v = Ok raw ->
        (64 < length raw)%nat ->
        exists e, returned (_to_bytes s1 s2) self = Error e)
  /\ (forall key requester recipient vendor fee asset a b,
        Buffer.fits 1 (_type self) = true ->
        Buffer.fits 4 (_timestamp self) = true ->
        Util.unhexlify (_sender_public_key self) = Ok key ->
        (if truthy (_requester_public_key self)
         then Util.unhexlify (str_of (_requester_public_key self))
                = Ok requester
         else requester = []) ->
        (_recipient_id self = None /\ recipient = zeros 21
         \/ truthy (_recipient_id self) = true
            /\ b58decode_check (str_of (_recipient_id self))
                 = Ok recipient) ->
        (_vendor_field self = None /\ vendor = zeros 64
         \/ exists v raw,
              _vendor_field self = Some v /\ Util.unhexlify v = Ok raw
              /\ (length raw <= 64)%nat
              /\ vendor = raw ++ zeros (64 - length raw)) ->
        Buffer.fits 8 (_amount self) = true ->
        _fee self = Some fee ->
        Buffer.fits 8 fee = true ->
        _handle_transaction_type self
          (le_bytes 1 (_type self) ++ le_bytes 4 (_timestamp self)
             ++ key ++ requester ++ recipient ++ vendor
             ++ le_bytes 8 (_amount self) ++ le_bytes 8 fee)
          = Ok ((le_bytes 1 (_type self) ++ le_bytes 4 (_timestamp self)
                   ++ key ++ requester ++ recipient ++ vendor
                   ++ le_bytes 8 (_amount self) ++ le_bytes 8 fee)
                  ++ asset) ->
        stored_bytes s1 (_signature self) = Ok a ->
        stored_bytes s2 (_sign_signature self) = Ok b ->
        returned (_to_bytes s1 s2) self
          = Ok ((le_bytes 1 (_type self) ++ le_bytes 4 (_timestamp self)
                   ++ key ++ requester ++ recipient ++ vendor
                   ++ le_bytes 8 (_amount self) ++ le_bytes 8 fee)
                  ++ asset ++ a ++ b))
  /\ (forall key requester recipient v raw,
        Buffer.fits 1 (_type self) = true ->
        Buffer.fits 4 (_timestamp self) = true ->
        Util.unhexlify (_sender_public_key self) = Ok key ->
        (if truthy (_requester_public_key self)
         then Util.unhexlify (str_of (_requester_public_key self))
                = Ok requester
         else requester = []) ->
        (_recipient_id self = None /\ recipient = zeros 21
         \/ truthy (_recipient_id self) = true
            /\ b58decode_check (str_of (_recipient_id self))
                 = Ok recipient) ->
        _vendor_field self = Some v ->
        Util.unhexlify v = Ok raw ->
        (64 < length raw)%nat ->
        returned (_to_bytes s1 s2) self = Error ValueError).
Proof.
  intros Hhook.
  assert (Hlayout : forall out,
     returned (_to_bytes s1 s2) self = Ok out ->
     exists key requester recipient vendor fee tail,
       out = le_bytes 1 (_type self) ++ le_bytes 4 (_timestamp self)
               ++ key ++ requester ++ recipient ++ vendor
               ++ le_bytes 8 (_amount self) ++ le_bytes 8 fee ++ tail
       /\ Util.unhexlify (_sender_public_key self) = Ok key
       /\ (_requester_public_key self = None -> requester = [])
       /\ (_recipient_id self = None -> recipient = zeros 21)
       /\ length vendor = 64%nat
       /\ (_vendor_field self = None -> vendor = zeros 64)
       /\ (forall v raw,
             _vendor_field self = Some v -> Util.unhexlify v = Ok raw ->
             (length raw <= 64)%nat
             /\ vendor = raw ++ zeros (64 - length raw))).
  { intros out H.
    unfold returned, _to_bytes, reads in H; cbn [value] in H.
    apply rbind_ok in H as (b1 & H1 & H). apply write_uint_ok in H1.
    apply rbind_ok in H as (b2 & H2 & H). apply write_uint_ok in H2.
    apply rbind_ok in H as (key & Hkey & H). cbv zeta in H.
    apply rbind_ok in H as (b3 & H3 & H).
    apply rbind_ok in H as (recipient & Hrec & H). cbv zeta in H.
    apply rbind_ok in H as (b4 & H4 & H).
    apply rbind_ok in H as (b5 & H5 & H).
    apply write_long_ok in H5 as (amount & Hamount & H5).
    injection Hamount as <-.
    apply rbind_ok in H as (b6 & H6 & H).
    apply write_long_ok in H6 as (fee & Hfee & H6).
    apply rbind_ok in H as (b7 & H7 & H).
    apply Hhook in H7 as (asset & H7).
    apply rbind_ok in H as (b8 & H8 & H).
    rewrite handle_signature_appends in H8.
    apply rbind_ok in H8 as (a & Ha & H8).
    apply rbind_ok in H8 as (b & Hb & H8).
    injection H8 as <-. injection H as <-.
    apply vendor_section_ok in H4 as (vendor & H4 & Hlen & Hnone & Hsome).
    assert (Hreq : exists requester,
              b3 = Buffer.write_bytes b2 key ++ requester
              /\ (_requester_public_key self = None -> requester = [])).
    { destruct (truthy (_requester_public_key self)) eqn:Htruthy.
      - apply rbind_ok in H3 as (rkey & Hrkey & H3). injection H3 as <-.
        exists rkey. split; [reflexivity|].
        intros Hnoreq. rewrite Hnoreq in Htruthy. discriminate Htruthy.
      - injection H3 as <-. exists []. split; [|reflexivity].
        symmetry. apply app_nil_r. }
    destruct Hreq as (requester & Hb3 & Hreqnone).
    exists key, requester, recipient, vendor, fee, (asset ++ a ++ b).
    split.
    { subst. unfold Buffer.to_bytes, Buffer.write_bytes, Buffer.new.
      rewrite <- !app_assoc. reflexivity. }
    split; [exact Hkey|]. split; [exact Hreqnone|].
    split.
    { intros Hnorec. rewrite Hnorec in Hrec. simpl in Hrec.
      injection Hrec as <-. reflexivity. }
    split; [exact Hlen|]. split; [exact Hnone|exact Hsome]. }
  split; [exact Hlayout|].
  split; [|split].
  - intros v raw Hv Hraw Hwide.
    destruct (returned (_to_bytes s1 s2) self) as [out|e] eqn:Hrun.
    + destruct (Hlayout out eq_refl)
        as (key & requester & recipient & vendor & fee & tail
            & _ & _ & _ & _ & _ & _ & Hsome).
      destruct (Hsome v raw Hv Hraw) as [Hle _]. lia.
    + exists e. reflexivity.
  - intros key requester recipient vendor fee asset a b.
    apply encoding_of_sections.
  - intros key requester recipient v raw.
    apply wide_vendor_raises.
Qed.

End Placeholders.

Lemma placeholder_sections_witness :
  appends_only no_asset_class
  /\ returned (@_to_bytes no_asset_class true true) scenario
       = Ok ((le_bytes 1 0 ++ le_bytes 4 10000000 ++ scenario_key ++ []
                ++ zeros 21 ++ zeros 64
                ++ le_bytes 8 100000000 ++ le_bytes 8 10000000)
               ++ [] ++ [] ++ [])
  /\ returned (@_to_bytes no_asset_class true true) hello_vendor
       = Ok ((le_bytes 1 0 ++ le_bytes 4 10000000 ++ scenario_key ++ []
                ++ zeros 21 ++ (ascii_bytes "Hello" ++ zeros (64 - 5))
                ++ le_bytes 8 100000000 ++ le_bytes 8 10000000)
               ++ [] ++ [] ++ [])
  /\ returned (@_to_bytes no_asset_class true true) full_vendor
       = Ok ((le_bytes 1 0 ++ le_bytes 4 10000000 ++ scenario_key ++ []
                ++ zeros 21 ++ (repeat "a"%byte 64 ++ zeros (64 - 64))
                ++ le_bytes 8 100000000 ++ le_bytes 8 10000000)
               ++ [] ++ [] ++ [])
  /\ returned (@_to_bytes no_asset_class true true) wide_vendor
       = Error ValueError
  /\ (exists out vendor,
        returned (@_to_bytes no_asset_class true true) full_vendor = Ok out
        /\ firstn 64 (skipn 59 out) = vendor
        /\ vendor = repeat "a"%byte 64 ++ zeros (64 - 64)).
Proof.
  pose proof (placeholder_sections (C := no_asset_class) scenario
                true true no_asset_class_appends_only)
    as (_ & _ & Hnone & _).
  pose proof (placeholder_sections (C := no_asset_class) hello_vendor
                true true no_asset_class_appends_only)
    as (_ & _ & Hhello & _).
  pose proof (placeholder_sections (C := no_asset_class) full_vendor
                true true no_asset_class_appends_only)
    as (Hlayout & _ & Hfull & _).
  pose proof (placeholder_sections (C := no_asset_class) wide_vendor
                true true no_asset_class_appends_only)
    as (_ & _ & _ & Hwide).
  assert (Erun : returned (@_to_bytes no_asset_class true true) full_vendor
                 = Ok ((le_bytes 1 0 ++ le_bytes 4 10000000 ++ scenario_key
                          ++ [] ++ zeros 21
                          ++ (repeat "a"%byte 64 ++ zeros (64 - 64))
                          ++ le_bytes 8 100000000 ++ le_bytes 8 10000000)
                         ++ [] ++ [] ++ [])).
  { apply (Hfull scenario_key [] (zeros 21)
             (repeat "a"%byte 64 ++ zeros (64 - 64)) 10000000 [] [] []).
    - reflexivity.
    - reflexivity.
    - vm_compute. reflexivity.
    - reflexivity.
    - left. split; reflexivity.
    - right. exists (Util.hexlify (repeat "a"%byte 64)), (repeat "a"%byte 64).
      split; [reflexivity|]. split; [vm_compute; reflexivity|].
      split; [simpl; lia|reflexivity].
    - reflexivity.
    - reflexivity.
    - reflexivity.
    - vm_compute. reflexivity.
    - reflexivity.
    - reflexivity. }
  split; [exact no_asset_class_appends_only|].
  split; [|split; [|split; [exact Erun|split]]].
  - apply (Hnone scenario_key [] (zeros 21) (zeros 64) 10000000 [] [] []).
    + reflexivity.
    + reflexivity.
    + vm_compute. reflexivity.
    + reflexivity.
    + left. split; reflexivity.
    + left. split; reflexivity.
    + reflexivity.
    + reflexivity.
    + reflexivity.
    + vm_compute. reflexivity.
    + reflexivity.
    + reflexivity.
  - apply (Hhello scenario_key [] (zeros 21)
             (ascii_bytes "Hello" ++ zeros (64 - 5)) 10000000 [] [] []).
    + reflexivity.
    + reflexivity.
    + vm_compute. reflexivity.
    + reflexivity.
    + left. split; reflexivity.
    + right. exists "48656c6c6f"%string, (ascii_bytes "Hello").
      split; [reflexivity|]. split; [vm_compute; reflexivity|].
      split; [simpl; lia|reflexivity].
    + reflexivity.
    + reflexivity.
    + reflexivity.
    + vm_compute. reflexivity.
    + reflexivity.
    + reflexivity.
  - apply (Hwide scenario_key [] (zeros 21)
             (Util.hexlify (repeat "a"%byte 65)) (repeat "a"%byte 65)).
    + reflexivity.
    + reflexivity.
    + vm_compute. reflexivity.
    + reflexivity.
    + left. split; reflexivity.
    + reflexivity.
    + vm_compute. reflexivity.
    + simpl. lia.
  - destruct (Hlayout _ Erun)
      as (key & requester & recipient & vendor & fee & tail
          & Hout & Hkey & Hreq & Hrec & Hlen & _ & Hsome).
    destruct (Hsome (Util.hexlify (repeat "a"%byte 64)) (repeat "a"%byte 64)
                eq_refl ltac:(vm_compute; reflexivity)) as [_ Hvendor].
    eexists. exists vendor. split; [exact Erun|].
    split; [|exact Hvendor].
    rewrite Hvendor. vm_compute. reflexivity.
Defined.

(* ------------------------------------------------------------------ *)
(** ** The scenario                                                      *)
(* ------------------------------------------------------------------ *)

Section Scenario.

Context {C : Collaborators}.

(** C7 (amended).  A transaction of type 0, timestamp 10000000, with a
    sender key of 33 bytes, amount 100000000, fee 10000000, no requester
    key, no recipient, no vendor field and a hook that appends nothing
    encodes, unsigned, to 139 bytes: type (1), timestamp (4), key (33),
    recipient placeholder (21), vendor field padding (64), amount (8),
    fee (8); and while no signature is stored, [_get_id] is the hex
    SHA-256 of those 139 bytes. *)
Theorem scenario_encoding (self : Transaction) (key : bytes) :
  _type self = 0 ->
  _timestamp self = 10000000 ->
  Util.unhexlify (_sender_public_key self) = Ok key ->
  length key = 33%nat ->
  _amount self = 100000000 ->
  _fee self = Some 10000000 ->
  _requester_public_key self = None ->
  _recipient_id self = None ->
  _vendor_field self = None ->
  (forall buffer, _handle_transaction_type self buffer = Ok buffer) ->
  let unsigned :=
    le_bytes 1 0 ++ le_bytes 4 10000000 ++ key ++ zeros 21 ++ zeros 64
      ++ le_bytes 8 100000000 ++ le_bytes 8 10000000 in
  returned (_to_bytes true true) self = Ok unsigned
  /\ length unsigned = 139%nat
  /\ (_signature self = None -> _sign_signature self = None ->
      returned _get_id self = Ok (Util.hexlify (Crypto.sha256 unsigned))).
Proof.
  intros Htype Htime Hkey Hlen Hamount Hfee Hreq Hrec Hvendor Hhook unsigned.
  assert (Hrun : returned (_to_bytes true true) self = Ok unsigned).
  { unfold returned, _to_bytes, reads; cbn [value].
    rewrite Htype, Htime, Hkey, Hamount, Hfee, Hreq, Hrec, Hvendor.
    cbn [rbind truthy str_of].
    change (Buffer.write_byte Buffer.new 0) with (Ok (le_bytes 1 0)).
    cbn [rbind].
    change (Buffer.write_int (le_bytes 1 0) 10000000)
      with (Ok (le_bytes 1 0 ++ le_bytes 4 10000000)).
    cbn [rbind].
    change (py_bytes 21) with (Ok (zeros 21)).
    change (py_bytes 64) with (Ok (zeros 64)).
    cbn [rbind]. unfold Buffer.write_bytes.
    change (Buffer.write_long ?b (Some 100000000))
      with (Ok (b ++ le_bytes 8 100000000)).
    cbn [rbind].
    change (Buffer.write_long ?b (Some 10000000))
      with (Ok (b ++ le_bytes 8 10000000)).
    cbn [rbind]. rewrite Hhook. cbn [rbind].
    rewrite handle_signature_appends, !stored_bytes_skipped.
    cbn [rbind]. unfold Buffer.to_bytes, unsigned.
    rewrite app_nil_r, <- !app_assoc. reflexivity. }
  split; [exact Hrun|]. split.
  - unfold unsigned. rewrite !length_app, Hlen. reflexivity.
  - intros Hs1 Hs2.
    rewrite <- (app_nil_r unsigned).
    change (unsigned ++ []) with (unsigned ++ [] ++ []).
    apply get_id_value; [exact Hrun| |];
      [rewrite Hs1|rewrite Hs2]; apply stored_bytes_unset.
Qed.

End Scenario.

(** C7, as stated, fails: the scenario once signed has every field of the
    claim and its unsigned encoding is the 139 bytes, yet [_get_id] is not
    their digest, the stored signature being hashed with them. *)
Lemma signed_scenario_id_is_not_the_unsigned_digest :
  _type signed_scenario = 0
  /\ _timestamp signed_scenario = 10000000
  /\ _amount signed_scenario = 100000000
  /\ _fee signed_scenario = Some 10000000
  /\ _requester_public_key signed_scenario = None
  /\ _recipient_id signed_scenario = None
  /\ _vendor_field signed_scenario = None
  /\ (exists key,
        Util.unhexlify (_sender_public_key signed_scenario) = Ok key
        /\ length key = 33%nat)
  /\ returned (@_to_bytes no_asset_class true true) signed_scenario
       = Ok scenario_bytes
  /\ length scenario_bytes = 139%nat
  /\ returned (@_get_id no_asset_class) signed_scenario
       <> Ok (Util.hexlify (Crypto.sha256 scenario_bytes)).
Proof.
  repeat (split; [vm_compute; reflexivity|]).
  split; [eexists; split; vm_compute; reflexivity|].
  repeat (split; [vm_compute; reflexivity|]).
  vm_compute. intros H. discriminate H.
Qed.

Lemma scenario_encoding_witness :
  returned (@_to_bytes no_asset_class true true) scenario = Ok scenario_bytes
  /\ length scenario_bytes = 139%nat
  /\ returned (@_get_id no_asset_class) scenario
       = Ok (Util.hexlify (Crypto.sha256 scenario_bytes)).
Proof.
  pose proof (scenario_encoding (C := no_asset_class) scenario
                ("002"%byte :: Crypto.sha256 (ascii_bytes scenario_secret))
                eq_refl eq_refl
                ltac:(vm_compute; reflexivity) ltac:(vm_compute; reflexivity)
                eq_refl eq_refl eq_refl eq_refl eq_refl
                (fun buffer => eq_refl)) as [Hrun [Hlen Hid]].
  split; [exact Hrun|]. split; [exact Hlen|].
  apply Hid; reflexivity.
Defined.

(* ------------------------------------------------------------------ *)
(** ** The dictionary                                                    *)
(* ------------------------------------------------------------------ *)

(** The key under which [to_dict] files the vendor field. *)
Lemma to_dict_vendor_key self :
  exists d,
    returned to_dict self = Ok d
    /\ d !! "venderField"%string = Some (py_str (_vendor_field self)).
Proof. eexists. split; [reflexivity|]. vm_compute. reflexivity. Qed.

(** C9 (amended).  [to_dict] returns a dictionary of eleven entries, leaves
    the transaction as it was and calls no primitive; the keys [type],
    [amount], [fee], [asset], [id], [recipientId], [timestamp],
    [senderPublicKey] and [signature] hold the current value of the
    attribute, and the second signature is under the key
    [signSignature]. *)
Theorem to_dict_snapshot (self : Transaction) :
  exists d : gmap string pyval,
    to_dict self = mkOutcome (Ok d) self []
    /\ size d = 11%nat
    /\ d !! "type"%string = Some (PyInt (_type self))
    /\ d !! "amount"%string = Some (PyInt (_amount self))
    /\ d !! "fee"%string = Some (py_int (_fee self))
    /\ d !! "asset"%string = Some (_asset self)
    /\ d !! "id"%string = Some (py_str (_id self))
    /\ d !! "recipientId"%string = Some (py_str (_recipient_id self))
    /\ d !! "timestamp"%string = Some (PyInt (_timestamp self))
    /\ d !! "senderPublicKey"%string = Some (PyStr (_sender_public_key self))
    /\ d !! "signature"%string = Some (py_str (_signature self))
    /\ d !! "signSignature"%string = Some (py_str (_sign_signature self)).
Proof.
  eexists. split; [reflexivity|].
  split; [vm_compute; reflexivity|].
  repeat split; vm_compute; reflexivity.
Qed.

(** C9, as stated, fails: the dictionary of the scenario has no key
    [secondSignature] and no key [vendorField]. *)
Lemma to_dict_lacks_claimed_keys :
  exists d : gmap string pyval,
    returned to_dict scenario = Ok d
    /\ d !! "secondSignature"%string = None
    /\ d !! "vendorField"%string = None
    /\ d !! "signSignature"%string = Some PyNone
    /\ d !! "venderField"%string = Some PyNone.
Proof.
  eexists. split; [reflexivity|].
  repeat split; vm_compute; reflexivity.
Qed.

(* ================================================================== *)
(** * Further properties of the class                                    *)
(* ================================================================== *)

Section Composition.

Context {C : Collaborators}.

(** An error of the fully skipped encoding is the error under any
    switches. *)
Lemma to_bytes_error_any s1 s2 self e :
  returned (_to_bytes true true) self = Error e ->
  returned (_to_bytes s1 s2) self = Error e.
Proof. intros H. rewrite to_bytes_switches, H. reflexivity. Qed.

(** X1.  Whenever [_to_bytes] returns bytes under some switches, it returns
    bytes with both signatures skipped as well, and the former are the
    latter followed by what the first, then the second stored signature
    contributes under its switch; and when the fully skipped encoding
    raises, the encoding raises the same under every switch. *)
Theorem unsigned_bytes_are_a_prefix (self : Transaction) (s1 s2 : bool) :
  (forall out,
     returned (_to_bytes s1 s2) self = Ok out ->
     exists base a b,
       returned (_to_bytes true true) self = Ok base
       /\ stored_bytes s1 (_signature self) = Ok a
       /\ stored_bytes s2 (_sign_signature self) = Ok b
       /\ out = base ++ a ++ b)
  /\ (forall e,
        returned (_to_bytes true true) self = Error e ->
        returned (_to_bytes s1 s2) self = Error e).
Proof.
  split.
  - intros out H. rewrite to_bytes_switches in H.
    apply rbind_ok in H as (base & Hbase & H).
    apply rbind_ok in H as (a & Ha & H).
    apply rbind_ok in H as (b & Hb & H).
    injection H as <-. exists base, a, b. repeat split; assumption.
  - intros e. apply to_bytes_error_any.
Qed.

(** X2.  [_sign] assigns to [_signature] and to nothing else, and only when
    it returns; [_second_sign] likewise to [_sign_signature].  When either
    raises, the transaction is as it was. *)
Theorem signing_assigns_one_attribute (self : Transaction) (secret : string) :
  ((exists e, returned (_sign secret) self = Error e
              /\ state_after (_sign secret) self = self)
   \/ (exists sig, returned (_sign secret) self = Ok PyNone
                   /\ state_after (_sign secret) self
                        = set_signature self (Some sig)))
  /\ ((exists e, returned (_second_sign secret) self = Error e
                 /\ state_after (_second_sign secret) self = self)
      \/ (exists sig, returned (_second_sign secret) self = Ok PyNone
                      /\ state_after (_second_sign secret) self
                           = set_sign_signature self (Some sig)))
  /\ _sign_signature (state_after (_sign secret) self) = _sign_signature self
  /\ _signature (state_after (_second_sign secret) self) = _signature self
  /\ _id (state_after (_sign secret) self) = _id self
  /\ _id (state_after (_second_sign secret) self) = _id self.
Proof.
  unfold returned, state_after.
  rewrite sign_outcome, second_sign_outcome.
  destruct (returned (_to_bytes true true) self) as [b1|e1];
    destruct (returned (_to_bytes false true) self) as [b2|e2];
    cbn zeta;
    repeat match goal with
    | |- context [Signature_sign ?s ?h] => destruct (Signature_sign s h)
    end;
    cbn [value self_after];
    repeat split; eauto.
Qed.

(** X3.  [verify] and [second_verify] assign nothing, call the
    verification primitive at most once, and return [None] or raise: the
    answer of the primitive is never what they return. *)
Theorem verification_returns_nothing (self : Transaction) :
  state_after verify self = self
  /\ state_after second_verify self = self
  /\ (length (calls_of verify self) <= 1)%nat
  /\ (length (calls_of second_verify self) <= 1)%nat
  /\ (forall answer, returned verify self <> Ok (PyBool answer))
  /\ (forall answer, returned second_verify self <> Ok (PyBool answer))
  /\ (returned verify self = Ok PyNone
      \/ exists e, returned verify self = Error e)
  /\ (returned second_verify self = Ok PyNone
      \/ exists e, returned second_verify self = Error e).
Proof.
  unfold returned, state_after, calls_of.
  rewrite verify_outcome, second_verify_outcome.
  destruct (returned (_to_bytes false true) self) as [b1|e1];
    destruct (returned (_to_bytes false false) self) as [b2|e2];
    cbn zeta;
    repeat match goal with
    | |- context [Signature_verify ?k ?h ?s] =>
        destruct (Signature_verify k h s)
    end;
    cbn [value self_after calls length];
    repeat match goal with
    | |- _ /\ _ => split
    end;
    try reflexivity; try lia;
    try (intros answer H; discriminate H);
    try (left; reflexivity);
    right; eexists; reflexivity.
Qed.

(** X4.  [_get_id] and [_get_hash] assign nothing and call no primitive;
    in particular [_get_id] does not store the identifier: [_id] is what
    it was. *)
Theorem identifier_is_not_stored (self : Transaction) (s1 s2 : bool) :
  state_after _get_id self = self
  /\ _id (state_after _get_id self) = _id self
  /\ calls_of _get_id self = []
  /\ state_after (_get_hash s1 s2) self = self
  /\ calls_of (_get_hash s1 s2) self = [].
Proof.
  unfold state_after, calls_of.
  rewrite get_id_outcome, get_hash_outcome.
  destruct (returned (_to_bytes false false) self);
    destruct (returned (_to_bytes s1 s2) self);
    repeat split; reflexivity.
Qed.

(** X5.  With a hook that does not read the signatures, signing does not
    change the bytes that [_sign] hashes: after [_sign] or [_second_sign],
    with any secret, the hash with both signatures skipped is what it
    was. *)
Theorem signing_keeps_the_signed_hash (self : Transaction) (secret : string) :
  ignores_signatures C ->
  returned (_get_hash true true) (state_after (_sign secret) self)
    = returned (_get_hash true true) self
  /\ returned (_get_hash true true) (state_after (_second_sign secret) self)
    = returned (_get_hash true true) self.
Proof.
  intros Hhook.
  assert (Hhash : forall self',
            returned (_to_bytes true true) self'
              = returned (_to_bytes true true) self ->
            returned (_get_hash true true) self'
              = returned (_get_hash true true) self).
  { intros self' H. unfold returned at 1 2.
    rewrite !get_hash_outcome, H.
    destruct (returned (_to_bytes true true) self); reflexivity. }
  split; apply Hhash; unfold state_after.
  - rewrite sign_outcome.
    destruct (returned (_to_bytes true true) self) as [b|e] eqn:Hbase;
      cbn zeta; [|exact Hbase].
    destruct (Signature_sign secret _); cbn [self_after]; [|exact Hbase].
    rewrite (proj1 (to_bytes_base_set_signature self _ Hhook)).
    exact Hbase.
  - rewrite second_sign_outcome.
    destruct (returned (_to_bytes false true) self) as [b|e];
      cbn zeta; [|reflexivity].
    destruct (Signature_sign secret _); cbn [self_after]; [|reflexivity].
    apply (proj2 (to_bytes_base_set_signature self _ Hhook)).
Qed.

(** X6.  When the encoding with both signatures skipped raises, every
    method that encodes raises the same, assigns nothing and calls no
    primitive. *)
Theorem failed_encoding_stops_every_method
    (self : Transaction) (secret : string) (e : exn) :
  returned (_to_bytes true true) self = Error e ->
  _get_id self = mkOutcome (Error e) self []
  /\ _sign secret self = mkOutcome (Error e) self []
  /\ _second_sign secret self = mkOutcome (Error e) self []
  /\ verify self = mkOutcome (Error e) self []
  /\ second_verify self = mkOutcome (Error e) self [].
Proof.
  intros H.
  rewrite get_id_outcome, sign_outcome, second_sign_outcome,
    verify_outcome, second_verify_outcome.
  rewrite (to_bytes_error_any false false self e H).
  rewrite (to_bytes_error_any false true self e H).
  rewrite H. repeat split; reflexivity.
Qed.

End Composition.

Lemma unsigned_bytes_are_a_prefix_witness :
  exists a b,
    stored_bytes false (_signature twice_signed_scenario) = Ok a
    /\ stored_bytes false (_sign_signature twice_signed_scenario) = Ok b
    /\ returned (@_to_bytes no_asset_class false false) twice_signed_scenario
         = Ok (scenario_bytes ++ a ++ b).
Proof.
  destruct (returned (@_to_bytes no_asset_class false false)
              twice_signed_scenario) as [out|e] eqn:Hrun;
    [|vm_compute in Hrun; discriminate Hrun].
  destruct (proj1 (unsigned_bytes_are_a_prefix (C := no_asset_class)
                     twice_signed_scenario false false) out Hrun)
    as (base & a & b & Hbase & Ha & Hb & Hout).
  exists a, b. split; [exact Ha|]. split; [exact Hb|].
  rewrite Hout. f_equal. f_equal.
  assert (Hs : returned (@_to_bytes no_asset_class true true)
                 twice_signed_scenario = Ok scenario_bytes)
    by (vm_compute; reflexivity).
  rewrite Hs in Hbase. injection Hbase as <-. reflexivity.
Defined.

Lemma signing_keeps_the_signed_hash_witness :
  ignores_signatures no_asset_class
  /\ returned (@_get_hash no_asset_class true true) signed_scenario
       = returned (@_get_hash no_asset_class true true) scenario.
Proof.
  split; [exact no_asset_class_ignores_signatures|].
  exact (proj1 (signing_keeps_the_signed_hash (C := no_asset_class)
                  scenario scenario_secret
                  no_asset_class_ignores_signatures)).
Defined.

Lemma failed_encoding_stops_every_method_witness :
  returned (@_to_bytes no_asset_class true true) feeless_wide_vendor
    = Error ValueError
  /\ @_sign no_asset_class scenario_secret feeless_wide_vendor
       = mkOutcome (Error ValueError) feeless_wide_vendor [].
Proof.
  assert (H : returned (@_to_bytes no_asset_class true true)
                feeless_wide_vendor = Error ValueError)
    by (vm_compute; reflexivity).
  split; [exact H|].
  exact (proj1 (proj2 (failed_encoding_stops_every_method
                         (C := no_asset_class) feeless_wide_vendor
                         scenario_secret ValueError H))).
Defined.

Section Lifecycle.

Context {C : Collaborators}.

(** With the fee unset, the encoding with both signatures skipped
    raises. *)
Lemma unset_fee_raises self :
  _fee self = None ->
  exists e, returned (_to_bytes true true) self = Error e.
Proof.
  intros Hfee. unfold returned, _to_bytes, reads; cbn [value]. rewrite Hfee.
  repeat match goal with
  | |- context [rbind ?r _] =>
      destruct r; cbn [rbind Buffer.write_long];
      try (eexists; reflexivity)
  end.
Qed.

(** X7.  A transaction as [__init__] leaves it, of any type and for any
    secret, cannot be used yet: the fee being unset, [_to_bytes] raises
    under every switch, and [_get_id], [_sign] and [verify] raise the same
    without assigning anything or calling a primitive. *)
Theorem fresh_transaction_is_not_ready (type : Z) (secret : string) :
  exists e,
    (forall s1 s2,
       returned (_to_bytes s1 s2) (__init__ type secret) = Error e)
    /\ _get_id (__init__ type secret)
         = mkOutcome (Error e) (__init__ type secret) []
    /\ (forall secret',
          _sign secret' (__init__ type secret)
            = mkOutcome (Error e) (__init__ type secret) [])
    /\ verify (__init__ type secret)
         = mkOutcome (Error e) (__init__ type secret) [].
Proof.
  destruct (unset_fee_raises (__init__ type secret) eq_refl) as [e He].
  exists e. split; [|split; [|split]].
  - intros s1 s2. apply to_bytes_error_any. exact He.
  - rewrite get_id_outcome, (to_bytes_error_any false false _ e He).
    reflexivity.
  - intros secret'. rewrite sign_outcome, He. reflexivity.
  - rewrite verify_outcome, (to_bytes_error_any false true _ e He).
    reflexivity.
Qed.

(** X8.  A stored signature that is the empty string counts as no
    signature: with a hook that does not read the signatures, every
    encoding is the same whether [_signature] (or [_sign_signature]) is
    the empty string or [None]. *)
Theorem empty_signature_counts_as_unset
    (self : Transaction) (s1 s2 : bool) :
  ignores_signatures C ->
  returned (_to_bytes s1 s2) (set_signature self (Some EmptyString))
    = returned (_to_bytes s1 s2) (set_signature self None)
  /\ returned (_to_bytes s1 s2) (set_sign_signature self (Some EmptyString))
    = returned (_to_bytes s1 s2) (set_sign_signature self None).
Proof.
  intros Hhook. split.
  - rewrite (to_bytes_switches s1 s2 (set_signature self (Some EmptyString))).
    rewrite (to_bytes_switches s1 s2 (set_signature self None)).
    rewrite !(proj1 (to_bytes_base_set_signature self _ Hhook)).
    cbn [_signature _sign_signature set_signature].
    unfold stored_bytes. cbn [truthy]. rewrite !andb_false_r. reflexivity.
  - rewrite (to_bytes_switches s1 s2
               (set_sign_signature self (Some EmptyString))).
    rewrite (to_bytes_switches s1 s2 (set_sign_signature self None)).
    rewrite !(proj2 (to_bytes_base_set_signature self _ Hhook)).
    cbn [_signature _sign_signature set_sign_signature].
    unfold stored_bytes. cbn [truthy]. rewrite !andb_false_r. reflexivity.
Qed.

(** X9.  [_sign] followed by [verify]: [_sign] has the unsigned bytes
    hashed and stores the signature it gets; [verify] then hands the
    primitive the sender's key, that signature, and the hash of the
    unsigned bytes followed by the bytes of that signature. *)
Theorem verify_after_sign
    (self : Transaction) (secret sig : string) (base s : bytes) :
  ignores_signatures C ->
  returned (_to_bytes true true) self = Ok base ->
  Signature_sign secret (Crypto.sha256 base) = Ok sig ->
  stored_bytes false (Some sig) = Ok s ->
  calls_of (_sign secret) self = [CallSign secret (Crypto.sha256 base)]
  /\ calls_of verify (state_after (_sign secret) self)
       = [CallVerify (_sender_public_key self)
            (Crypto.sha256 (base ++ s)) (Some sig)].
Proof.
  intros Hhook Hbase Hsig Hs. split.
  - apply sign_hashes_unsigned_bytes. exact Hbase.
  - unfold state_after. rewrite sign_outcome, Hbase. cbn zeta.
    rewrite Hsig. cbn [self_after].
    apply (verify_hashes_first_signature (set_signature self (Some sig))).
    + rewrite (proj1 (to_bytes_base_set_signature self _ Hhook)).
      exact Hbase.
    + exact Hs.
Qed.

(** X10.  [_second_sign] followed by [second_verify]: [_second_sign] has
    the unsigned bytes followed by the stored first signature hashed;
    [second_verify] then hands the primitive the hash of those bytes
    followed by the bytes of the second signature itself. *)
Theorem second_verify_after_second_sign
    (self : Transaction) (secret sig : string) (base a s : bytes) :
  ignores_signatures C ->
  returned (_to_bytes true true) self = Ok base ->
  stored_bytes false (_signature self) = Ok a ->
  Signature_sign secret (Crypto.sha256 (base ++ a)) = Ok sig ->
  stored_bytes false (Some sig) = Ok s ->
  calls_of (_second_sign secret) self
    = [CallSign secret (Crypto.sha256 (base ++ a))]
  /\ calls_of second_verify (state_after (_second_sign secret) self)
       = [CallVerify (_sender_public_key self)
            (Crypto.sha256 (base ++ a ++ s)) (Some sig)].
Proof.
  intros Hhook Hbase Ha Hsig Hs.
  assert (Hrun : returned (_to_bytes false true) self = Ok (base ++ a)).
  { rewrite to_bytes_switches, Hbase, Ha, stored_bytes_skipped.
    cbn [rbind]. rewrite app_nil_r. reflexivity. }
  split.
  - unfold calls_of. rewrite second_sign_outcome, Hrun. cbn zeta.
    rewrite Hsig. reflexivity.
  - unfold state_after. rewrite second_sign_outcome, Hrun. cbn zeta.
    rewrite Hsig. cbn [self_after].
    unfold calls_of. rewrite second_verify_outcome.
    rewrite to_bytes_switches.
    rewrite (proj2 (to_bytes_base_set_signature self _ Hhook)), Hbase.
    cbn [_signature _sign_signature _sender_public_key set_sign_signature].
    rewrite Ha, Hs. cbn [rbind]. cbn zeta.
    destruct (Signature_verify _ _ _); reflexivity.
Qed.

(** X11.  A stored first signature that does not decode blocks whatever
    encodes it, and nothing else: [_get_id], [verify], [second_verify] and
    [_second_sign] raise the decoding error without calling a primitive,
    while [_sign], which skips it, still asks for a signature of the
    unsigned bytes. *)
Theorem undecodable_signature_blocks_all_but_sign
    (self : Transaction) (secret : string) (base : bytes) (e : exn) :
  returned (_to_bytes true true) self = Ok base ->
  stored_bytes false (_signature self) = Error e ->
  _get_id self = mkOutcome (Error e) self []
  /\ verify self = mkOutcome (Error e) self []
  /\ second_verify self = mkOutcome (Error e) self []
  /\ _second_sign secret self = mkOutcome (Error e) self []
  /\ calls_of (_sign secret) self = [CallSign secret (Crypto.sha256 base)].
Proof.
  intros Hbase Hsig.
  assert (Hrun : forall s2, returned (_to_bytes false s2) self = Error e).
  { intros s2. rewrite to_bytes_switches, Hbase, Hsig. reflexivity. }
  rewrite get_id_outcome, verify_outcome, second_verify_outcome,
    second_sign_outcome, !Hrun.
  repeat split. apply sign_hashes_unsigned_bytes. exact Hbase.
Qed.

End Lifecycle.

Lemma empty_signature_counts_as_unset_witness :
  ignores_signatures no_asset_class
  /\ returned (@_to_bytes no_asset_class false false)
       (set_signature scenario (Some EmptyString))
     = returned (@_to_bytes no_asset_class false false)
         (set_signature scenario None).
Proof.
  split; [exact no_asset_class_ignores_signatures|].
  exact (proj1 (empty_signature_counts_as_unset (C := no_asset_class)
                  scenario false false no_asset_class_ignores_signatures)).
Defined.

Lemma verify_after_sign_witness :
  exists sig s,
    StandIn.sign scenario_secret (Crypto.sha256 scenario_bytes) = Ok sig
    /\ stored_bytes false (Some sig) = Ok s
    /\ s <> []
    /\ calls_of (@verify no_asset_class) signed_scenario
         = [CallVerify (_sender_public_key scenario)
              (Crypto.sha256 (scenario_bytes ++ s)) (Some sig)].
Proof.
  eexists. eexists.
  split; [vm_compute; reflexivity|].
  split; [vm_compute; reflexivity|].
  split; [intros H; discriminate H|].
  refine (proj2 (verify_after_sign (C := no_asset_class)
                   scenario scenario_secret _ scenario_bytes _
                   no_asset_class_ignores_signatures _ _ _)).
  - vm_compute. reflexivity.
  - vm_compute. reflexivity.
  - vm_compute. reflexivity.
Defined.

Lemma second_verify_after_second_sign_witness :
  exists a sig s,
    stored_bytes false (_signature signed_scenario) = Ok a
    /\ StandIn.sign second_secret (Crypto.sha256 (scenario_bytes ++ a))
         = Ok sig
    /\ stored_bytes false (Some sig) = Ok s
    /\ calls_of (@second_verify no_asset_class) twice_signed_scenario
         = [CallVerify (_sender_public_key signed_scenario)
              (Crypto.sha256 (scenario_bytes ++ a ++ s)) (Some sig)].
Proof.
  eexists. eexists. eexists.
  split; [vm_compute; reflexivity|].
  split; [vm_compute; reflexivity|].
  split; [vm_compute; reflexivity|].
  refine (proj2 (second_verify_after_second_sign (C := no_asset_class)
                   signed_scenario second_secret _ scenario_bytes _ _
                   no_asset_class_ignores_signatures _ _ _ _)).
  - vm_compute. reflexivity.
  - vm_compute. reflexivity.
  - vm_compute. reflexivity.
  - vm_compute. reflexivity.
Defined.

Lemma undecodable_signature_blocks_all_but_sign_witness :
  stored_bytes false (_signature (set_signature scenario (Some "abc"%string)))
    = Error MalformedHexError
  /\ @_get_id no_asset_class (set_signature scenario (Some "abc"%string))
       = mkOutcome (Error MalformedHexError)
           (set_signature scenario (Some "abc"%string)) []
  /\ calls_of (@_sign no_asset_class scenario_secret)
       (set_signature scenario (Some "abc"%string))
       = [CallSign scenario_secret (Crypto.sha256 scenario_bytes)].
Proof.
  pose proof (undecodable_signature_blocks_all_but_sign
                (C := no_asset_class)
                (set_signature scenario (Some "abc"%string))
                scenario_secret scenario_bytes MalformedHexError
                ltac:(vm_compute; reflexivity)
                ltac:(vm_compute; reflexivity))
    as (Hid & _ & _ & _ & Hsign).
  split; [vm_compute; reflexivity|]. split; [exact Hid|exact Hsign].
Defined.

Section Layout.

Context {C : Collaborators}.

Lemma length_le_bytes width v : length (le_bytes width v) = width.
Proof.
  revert v. induction width as [|w IH]; intros v; simpl;
    [reflexivity|]. rewrite IH. reflexivity.
Qed.

Lemma skip_section {A} (section rest : list A) (m n : nat) :
  length section = m -> skipn (m + n) (section ++ rest) = skipn n rest.
Proof.
  intros <-. revert n. induction section as [|x xs IH]; intros n; simpl.
  - reflexivity.
  - apply IH.
Qed.

Lemma first_section {A} (section rest : list A) (m : nat) :
  length section = m -> firstn m (section ++ rest) = section.
Proof.
  intros <-. induction section as [|x xs IH]; simpl.
  - reflexivity.
  - f_equal. exact IH.
Qed.

(** Every section of an encoding, in the order [_to_bytes] writes them. *)
Lemma to_bytes_layout self s1 s2 out :
  appends_only C ->
  returned (_to_bytes s1 s2) self = Ok out ->
  exists key requester recipient vendor fee tail,
    out = le_bytes 1 (_type self) ++ le_bytes 4 (_timestamp self)
            ++ key ++ requester ++ recipient ++ vendor
            ++ le_bytes 8 (_amount self) ++ le_bytes 8 fee ++ tail
    /\ Util.unhexlify (_sender_public_key self) = Ok key
    /\ (if truthy (_requester_public_key self)
        then Util.unhexlify (str_of (_requester_public_key self))
               = Ok requester
        else requester = [])
    /\ (if truthy (_recipient_id self)
        then b58decode_check (str_of (_recipient_id self)) = Ok recipient
        else recipient = zeros 21)
    /\ length vendor = 64%nat
    /\ _fee self = Some fee.
Proof.
  intros Hhook H.
  unfold returned, _to_bytes, reads in H; cbn [value] in H.
  apply rbind_ok in H as (b1 & H1 & H). apply write_uint_ok in H1.
  apply rbind_ok in H as (b2 & H2 & H). apply write_uint_ok in H2.
  apply rbind_ok in H as (key & Hkey & H). cbv zeta in H.
  apply rbind_ok in H as (b3 & H3 & H).
  apply rbind_ok in H as (recipient & Hrec & H). cbv zeta in H.
  apply rbind_ok in H as (b4 & H4 & H).
  apply rbind_ok in H as (b5 & H5 & H).
  apply write_long_ok in H5 as (amount & Hamount & H5).
  injection Hamount as <-.
  apply rbind_ok in H as (b6 & H6 & H).
  apply write_long_ok in H6 as (fee & Hfee & H6).
  apply rbind_ok in H as (b7 & H7 & H).
  apply Hhook in H7 as (asset & H7).
  apply rbind_ok in H as (b8 & H8 & H).
  rewrite handle_signature_appends in H8.
  apply rbind_ok in H8 as (a & Ha & H8).
  apply rbind_ok in H8 as (b & Hb & H8).
  injection H8 as <-. injection H as <-.
  apply vendor_section_ok in H4 as (vendor & H4 & Hlen & _ & _).
  assert (Hreq : exists requester,
            b3 = Buffer.write_bytes b2 key ++ requester
            /\ (if truthy (_requester_public_key self)
                then Util.unhexlify (str_of (_requester_public_key self))
                       = Ok requester
                else requester = [])).
  { destruct (truthy (_requester_public_key self)).
    - apply rbind_ok in H3 as (rkey & Hrkey & H3). injection H3 as <-.
      exists rkey. split; [reflexivity|exact Hrkey].
    - injection H3 as <-. exists []. split; [|reflexivity].
      symmetry. apply app_nil_r. }
  destruct Hreq as (requester & Hb3 & Hreq).
  exists key, requester, recipient, vendor, fee, (asset ++ a ++ b).
  split.
  { subst. unfold Buffer.to_bytes, Buffer.write_bytes, Buffer.new.
    rewrite <- !app_assoc. reflexivity. }
  split; [exact Hkey|]. split; [exact Hreq|]. split.
  { destruct (truthy (_recipient_id self)); [exact Hrec|].
    apply py_bytes_ok in Hrec as [_ ->]. reflexivity. }
  split; [exact Hlen|exact Hfee].
Qed.

(** X12.  Where the fields stand in an encoding, for a hook that only
    appends: the type is byte 0, the timestamp bytes 1 to 4, the sender
    key starts at byte 5, the requester key (when there is one) and the
    recipient section follow, and the amount and the fee are the 8 and 8
    bytes that start 64 bytes further.  So the amount moves by exactly the
    length of the requester key, and not with the vendor field. *)
Theorem field_offsets (self : Transaction) (s1 s2 : bool) (out : bytes) :
  appends_only C ->
  returned (_to_bytes s1 s2) self = Ok out ->
  exists key requester recipient fee,
    Util.unhexlify (_sender_public_key self) = Ok key
    /\ (if truthy (_requester_public_key self)
        then Util.unhexlify (str_of (_requester_public_key self))
               = Ok requester
        else requester = [])
    /\ (if truthy (_recipient_id self)
        then b58decode_check (str_of (_recipient_id self)) = Ok recipient
        else recipient = zeros 21)
    /\ _fee self = Some fee
    /\ firstn 1 out = le_bytes 1 (_type self)
    /\ firstn 4 (skipn 1 out) = le_bytes 4 (_timestamp self)
    /\ firstn (length key) (skipn 5 out) = key
    /\ firstn (length requester) (skipn (5 + length key) out) = requester
    /\ firstn (length recipient)
         (skipn (5 + length key + length requester) out) = recipient
    /\ firstn 8
         (skipn (5 + length key + length requester + length recipient + 64)
            out) = le_bytes 8 (_amount self)
    /\ firstn 8
         (skipn (5 + length key + length requester + length recipient + 72)
            out) = le_bytes 8 fee
    /\ (5 + length key + length requester + length recipient + 80
          <= length out)%nat.
Proof.
  intros Hhook H.
  destruct (to_bytes_layout self s1 s2 out Hhook H)
    as (key & requester & recipient & vendor & fee & tail
        & -> & Hkey & Hreq & Hrec & Hlen & Hfee).
  exists key, requester, recipient, fee.
  split; [exact Hkey|]. split; [exact Hreq|]. split; [exact Hrec|].
  split; [exact Hfee|].
  set (k := length key). set (r := length requester).
  set (p := length recipient).
  assert (L1 := length_le_bytes 1 (_type self)).
  assert (L4 := length_le_bytes 4 (_timestamp self)).
  assert (La := length_le_bytes 8 (_amount self)).
  assert (Lf := length_le_bytes 8 fee).
  split; [apply first_section; exact L1|].
  split.
  { replace 1%nat with (1 + 0)%nat by lia.
    rewrite (skip_section _ _ 1 0 L1). apply first_section. exact L4. }
  split.
  { replace 5%nat with (1 + (4 + 0))%nat by lia.
    rewrite (skip_section _ _ 1 _ L1), (skip_section _ _ 4 _ L4).
    apply first_section. reflexivity. }
  split.
  { replace (5 + k)%nat with (1 + (4 + (k + 0)))%nat by lia.
    rewrite (skip_section _ _ 1 _ L1), (skip_section _ _ 4 _ L4),
      (skip_section _ _ k _ eq_refl).
    apply first_section. reflexivity. }
  split.
  { replace (5 + k + r)%nat with (1 + (4 + (k + (r + 0))))%nat by lia.
    rewrite (skip_section _ _ 1 _ L1), (skip_section _ _ 4 _ L4),
      (skip_section _ _ k _ eq_refl), (skip_section _ _ r _ eq_refl).
    apply first_section. reflexivity. }
  split.
  { replace (5 + k + r + p + 64)%nat
      with (1 + (4 + (k + (r + (p + (64 + 0))))))%nat by lia.
    rewrite (skip_section _ _ 1 _ L1), (skip_section _ _ 4 _ L4),
      (skip_section _ _ k _ eq_refl), (skip_section _ _ r _ eq_refl),
      (skip_section _ _ p _ eq_refl), (skip_section _ _ 64 _ Hlen).
    apply first_section. exact La. }
  split.
  { replace (5 + k + r + p + 72)%nat
      with (1 + (4 + (k + (r + (p + (64 + (8 + 0)))))))%nat by lia.
    rewrite (skip_section _ _ 1 _ L1), (skip_section _ _ 4 _ L4),
      (skip_section _ _ k _ eq_refl), (skip_section _ _ r _ eq_refl),
      (skip_section _ _ p _ eq_refl), (skip_section _ _ 64 _ Hlen),
      (skip_section _ _ 8 _ La).
    apply first_section. exact Lf. }
  rewrite !length_app, L1, L4, La, Lf, Hlen. fold k r p. lia.
Qed.

End Layout.

Lemma field_offsets_witness :
  appends_only no_asset_class
  /\ exists out,
       returned (@_to_bytes no_asset_class true true) hello_vendor = Ok out
       /\ firstn 8 (skipn 123 out) = le_bytes 8 100000000.
Proof.
  split; [exact no_asset_class_appends_only|].
  destruct (returned (@_to_bytes no_asset_class true true) hello_vendor)
    as [out|e] eqn:Hrun; [|vm_compute in Hrun; discriminate Hrun].
  exists out. split; [reflexivity|].
  destruct (field_offsets (C := no_asset_class) hello_vendor true true out
              no_asset_class_appends_only Hrun)
    as (key & requester & recipient & fee & Hkey & Hreq & Hrec & _
        & _ & _ & _ & _ & _ & Hamount & _).
  vm_compute in Hkey. injection Hkey as <-.
  simpl in Hreq, Hrec. subst requester recipient. exact Hamount.
Defined.

(** X13.  A class whose hook raises [NotImplementedError], as the hook of
    [Transaction] itself does, encodes nothing: wherever a class with the
    same address codec and a working hook returns bytes, [_to_bytes]
    raises [NotImplementedError] under every switch, and so do [_get_id]
    and [_sign], which assigns nothing and calls no primitive. *)
Theorem abstract_hook_raises_not_implemented
    (C C' : Collaborators) (self : Transaction) (secret : string)
    (s1 s2 s1' s2' : bool) (out : bytes) :
  (forall t buffer,
     @_handle_transaction_type C t buffer = Error NotImplementedError) ->
  @b58decode_check C = @b58decode_check C' ->
  returned (@_to_bytes C' s1' s2') self = Ok out ->
  returned (@_to_bytes C s1 s2) self = Error NotImplementedError
  /\ @_get_id C self = mkOutcome (Error NotImplementedError) self []
  /\ @_sign C secret self = mkOutcome (Error NotImplementedError) self [].
Proof.
  intros Hhook Hcodec H.
  assert (Hb : exists base,
            returned (@_to_bytes C' true true) self = Ok base).
  { rewrite to_bytes_switches in H.
    apply rbind_ok in H as (base & Hb & _). exists base. exact Hb. }
  destruct Hb as [base Hb].
  assert (Hbase : returned (@_to_bytes C true true) self
                  = Error NotImplementedError).
  { unfold returned, _to_bytes, reads in *; cbn [value] in *.
    rewrite Hcodec.
    repeat match goal with
    | |- context [rbind ?r _] =>
        lazymatch r with
        | context [@_handle_transaction_type] => fail
        | _ => destruct r; cbn [rbind] in *; try discriminate Hb
        end
    end.
    rewrite Hhook. reflexivity. }
  split; [apply to_bytes_error_any; exact Hbase|]. split.
  - rewrite get_id_outcome, (to_bytes_error_any false false _ _ Hbase).
    reflexivity.
  - rewrite sign_outcome, Hbase. reflexivity.
Qed.

Lemma abstract_hook_raises_not_implemented_witness :
  returned (@_to_bytes no_asset_class true true) scenario = Ok scenario_bytes
  /\ returned (@_to_bytes base_class false false) scenario
       = Error NotImplementedError.
Proof.
  assert (H : returned (@_to_bytes no_asset_class true true) scenario
              = Ok scenario_bytes) by (vm_compute; reflexivity).
  split; [exact H|].
  exact (proj1 (abstract_hook_raises_not_implemented
                  base_class no_asset_class scenario scenario_secret
                  false false true true scenario_bytes
                  (fun _ _ => eq_refl) eq_refl H)).
Defined.

Ltac dict_entries :=
  apply map_eq; intros ?;
  cbn [list_to_map foldr fst snd uncurry];
  repeat (rewrite lookup_insert; case_decide; subst;
          try congruence;
          try match goal with |- ?x = ?x => reflexivity end).

Section Snapshot.

Context {C : Collaborators}.

(** X14.  What [to_dict] shows of a signing: after [_sign] has returned,
    the dictionary is the one from before with the new signature under
    [signature]; after [_second_sign], with it under [signSignature]. *)
Theorem to_dict_after_signing
    (self : Transaction) (secret sig : string) (base a : bytes) :
  returned (_to_bytes true true) self = Ok base ->
  stored_bytes false (_signature self) = Ok a ->
  exists d : gmap string pyval,
    returned to_dict self = Ok d
    /\ (Signature_sign secret (Crypto.sha256 base) = Ok sig ->
        returned to_dict (state_after (_sign secret) self)
          = Ok (<["signature"%string := PyStr sig]> d))
    /\ (Signature_sign secret (Crypto.sha256 (base ++ a)) = Ok sig ->
        returned to_dict (state_after (_second_sign secret) self)
          = Ok (<["signSignature"%string := PyStr sig]> d)).
Proof.
  intros Hbase Ha. eexists. split; [reflexivity|]. split.
  - intros Hsig. unfold state_after. rewrite sign_outcome, Hbase.
    cbn zeta. rewrite Hsig. cbn [self_after].
    unfold returned, to_dict, reads; cbn [value].
    cbn [_type _amount _fee _asset _id _recipient_id _vendor_field
         _timestamp _sender_public_key _signature _sign_signature
         set_signature set_sign_signature py_str].
    apply (f_equal Ok). dict_entries.
  - intros Hsig. unfold state_after. rewrite second_sign_outcome.
    rewrite to_bytes_switches, Hbase, Ha, stored_bytes_skipped.
    cbn [rbind]. rewrite app_nil_r. cbn zeta. rewrite Hsig.
    cbn [self_after].
    unfold returned, to_dict, reads; cbn [value].
    cbn [_type _amount _fee _asset _id _recipient_id _vendor_field
         _timestamp _sender_public_key _signature _sign_signature
         set_signature set_sign_signature py_str].
    apply (f_equal Ok). dict_entries.
Qed.

(** X15.  A vendor field that is the empty string counts as no vendor
    field: for a hook that answers the same on both, every encoding is the
    same whether [_vendor_field] is the empty string or [None]. *)
Theorem empty_vendor_field_counts_as_unset
    (self : Transaction) (s1 s2 : bool) :
  (forall buffer,
     _handle_transaction_type (set_vendor_field self (Some EmptyString))
       buffer
     = _handle_transaction_type (set_vendor_field self None) buffer) ->
  returned (_to_bytes s1 s2) (set_vendor_field self (Some EmptyString))
    = returned (_to_bytes s1 s2) (set_vendor_field self None).
Proof.
  intros Hhook.
  unfold returned, _to_bytes, reads; cbn [value].
  cbn [_type _timestamp _sender_public_key _requester_public_key
       _recipient_id _vendor_field _amount _fee set_vendor_field truthy].
  repeat match goal with
  | |- context [rbind ?r _] =>
      lazymatch r with
      | context [@_handle_transaction_type] => fail
      | _ => destruct r; cbn [rbind]; try reflexivity
      end
  end.
  rewrite Hhook. reflexivity.
Qed.

End Snapshot.

Lemma to_dict_after_signing_witness :
  exists (d : gmap string pyval) (sig : string),
    returned to_dict scenario = Ok d
    /\ StandIn.sign scenario_secret (Crypto.sha256 scenario_bytes) = Ok sig
    /\ returned to_dict signed_scenario
         = Ok (<["signature"%string := PyStr sig]> d).
Proof.
  assert (Hsig : exists sig,
            StandIn.sign scenario_secret (Crypto.sha256 scenario_bytes)
              = Ok sig) by (eexists; vm_compute; reflexivity).
  destruct Hsig as [sig Hsig].
  destruct (to_dict_after_signing (C := no_asset_class) scenario
              scenario_secret sig scenario_bytes []
              ltac:(vm_compute; reflexivity) eq_refl)
    as (d & Hd & Hsign & _).
  exists d, sig. split; [exact Hd|]. split; [exact Hsig|].
  apply Hsign. exact Hsig.
Defined.

Lemma empty_vendor_field_counts_as_unset_witness :
  returned (@_to_bytes no_asset_class true true)
    (set_vendor_field scenario (Some EmptyString))
  = returned (@_to_bytes no_asset_class true true)
      (set_vendor_field scenario None).
Proof.
  exact (empty_vendor_field_counts_as_unset (C := no_asset_class)
           scenario true true (fun _ => eq_refl)).
Defined.
